(** * App.py: users, product catalog and per-user cart over a relational store

    A shallow embedding of the Flask views of [App.py].  The three tables
    are lists of rows in storage (rowid) order; a view is a computation in
    a small state-and-exception monad over the SQLAlchemy session: writes
    are registered with the session and reach the store only at
    [session_commit]; a request that raises leaves the store as it was. *)

From Stdlib Require Import List ZArith QArith String Bool Lia.
Import ListNotations.

#[local] Open Scope string_scope.
#[local] Open Scope list_scope.
#[local] Open Scope Z_scope.

(** ** Data model (lines 37-55 of App.py) *)

(** [User]: [username] is [nullable=False, unique=True]; [password] is
    [nullable=True]. *)
Record User := {
  User_id : Z;
  User_username : string;
  User_password : option string
}.

(** A value of a [db.Float] column: a 64-bit float, given by the rational
    it stands for (the two zeros are not told apart), or an infinity. *)
Inductive float64 : Type :=
| Finite (q : Q)
| Infinite (negative : bool).

(** [Product]: [name] and [price] are [nullable=False]; [description] is
    [nullable=True]; [price] is a [db.Float]. *)
Record Product := {
  Product_id : Z;
  Product_name : string;
  Product_price : float64;
  Product_description : option string
}.

(** [CartItem]: both references are [nullable=False]. *)
Record CartItem := {
  CartItem_id : Z;
  CartItem_user_id : Z;
  CartItem_product_id : Z
}.

Record DB := {
  users : list User;
  products : list Product;
  cart_items : list CartItem
}.

(** Primary keys are unique, and so are usernames. *)
Record wf_db (db : DB) : Prop := {
  wf_users : NoDup (map User_id (users db));
  wf_usernames : NoDup (map User_username (users db));
  wf_products : NoDup (map Product_id (products db));
  wf_cart_items : NoDup (map CartItem_id (cart_items db))
}.

(** A [db.Integer] holds 64 bits; the bind of a Python integer beyond them
    raises [OverflowError]. *)
Definition in_range (id : Z) : bool :=
  (- 2 ^ 63 <=? id) && (id <? 2 ^ 63).

(** An integer primary key left out of an INSERT is one more than the
    largest key in the table, and 1 in an empty table. *)
Definition next_id (ids : list Z) : Z :=
  match ids with
  | [] => 1
  | i :: rest => 1 + fold_right Z.max i rest
  end.

(** ** Request bodies

    A key of the JSON body is absent, holds [null], or holds a value of
    the column's type. *)
Inductive field (A : Type) : Type :=
| Absent : field A
| Null : field A
| Value : A -> field A.
Arguments Absent {A}.
Arguments Null {A}.
Arguments Value {A} _.

(** ['k' in data] *)
Definition has_key {A} (f : field A) : bool :=
  match f with
  | Absent => false
  | _ => true
  end.

(** [data.get(k)], and [data[k]] once ['k' in data] holds: Python's [None]
    is [None] here. *)
Definition get {A} (f : field A) : option A :=
  match f with
  | Value a => Some a
  | _ => None
  end.

(** [data.get(k, default)] *)
Definition get_default {A} (f : field A) (default : A) : option A :=
  match f with
  | Absent => Some default
  | Null => None
  | Value a => Some a
  end.

Record login_json := {
  json_username : field string;
  json_password : field string
}.

(** A number of a JSON body, by its value: an integer literal, which
    Python reads as an [int], or a decimal literal, which it reads as the
    nearest [float]. *)
Inductive number : Type :=
| Integer (z : Z)
| Decimal (q : Q).

(** [n / d] rounded to the nearest integer, a tie to the even one. *)
Definition nearest_even (n d : Z) : Z :=
  let lower := n / d in
  let twice := 2 * (n mod d) in
  if twice <? d then lower
  else if d <? twice then lower + 1
  else if Z.even lower then lower else lower + 1.

(** The exponent [e] with [2^e <= n / d < 2^(e+1)], for positive [n], [d]. *)
Definition binade (n d : Z) : Z :=
  let e := Z.log2 n - Z.log2 d in
  if (if 0 <=? e then d * 2 ^ e <=? n else d <=? n * 2 ^ (- e)) then e else e - 1.

(** The 64-bit float nearest to [q]: 53 bits of significand, a smallest
    step of 2^-1074, an infinity from 2^1024 on. *)
Definition round64 (q : Q) : float64 :=
  let n := Z.abs (Qnum q) in
  let d := Zpos (Qden q) in
  if n =? 0 then Finite 0
  else
    let k := Z.max (binade n d - 52) (-1074) in
    let m := if 0 <=? k then nearest_even n (d * 2 ^ k)
             else nearest_even (n * 2 ^ (- k)) d in
    if 2 ^ 1024 <=? (if 0 <=? k then m * 2 ^ k else 0) then Infinite (Qnum q <? 0)
    else
      let magnitude := if 0 <=? k then inject_Z (m * 2 ^ k)
                       else Qred (Qmake m (Z.to_pos (2 ^ (- k)))) in
      Finite (if Qnum q <? 0 then Qopp magnitude else magnitude).

(** [float(value)], which the Float column applies to the value it is
    given: an [int] is rounded, and for one too large for a float it raises
    ([None]); a decimal literal was rounded, or sent to an infinity, when
    the body was parsed. *)
Definition to_float (x : number) : option float64 :=
  match x with
  | Integer z =>
      match round64 (inject_Z z) with
      | Finite q => Some (Finite q)
      | Infinite _ => None
      end
  | Decimal q => Some (round64 q)
  end.

Record product_json := {
  json_name : field string;
  json_price : field number;
  json_description : field string
}.

(** ** Responses *)

Record cart_entry := {
  entry_id : Z;
  entry_user_id : Z;
  entry_product_id : Z;
  entry_product_name : string;
  entry_product_price : float64
}.

Inductive payload : Type :=
| Message (m : string)
| ProductDetails (id : Z) (name : string) (price : float64) (description : option string)
| ProductList (l : list (Z * string * float64))
| CartContent (l : list cart_entry)
| Redirect (view : string).

Record response := {
  status : Z;
  body : payload
}.

Definition jsonify (p : payload) (code : Z) : response :=
  {| status := code; body := p |}.

(** ** The session *)

Inductive exn : Type :=
| AttributeError    (* an attribute of [None] *)
| IntegrityError    (* NOT NULL constraint failed *)
| OverflowError     (* an integer beyond 64 bits bound to a statement *)
| StatementError    (* [float] of an integer beyond every float, as SQLAlchemy
                       reports what a parameter raises *)
| OperationalError. (* the storage engine failed *)

(** A [Product] object before it is flushed: its attributes may be [None]. *)
Record ProductObj := {
  obj_name : option string;
  obj_price : option number;
  obj_description : option string
}.

(** What the session holds until commit. *)
Inductive write : Type :=
| Insert_Product (o : ProductObj)
| Update_Product (id : Z) (name : field string) (price : field number)
    (description : field string)
| Delete_Product (id : Z)
| Insert_CartItem (user_id product_id : Z)
| Delete_CartItem (id : Z).

(** An assignment [product.attr = v] on a NOT NULL column, checked at
    flush: an untouched attribute keeps the row's value. *)
Definition assign {A} (old : A) (f : field A) : option A :=
  match f with
  | Absent => Some old
  | Null => None
  | Value a => Some a
  end.

(** The same on a nullable column. *)
Definition assign_nullable {A} (old : option A) (f : field A) : option A :=
  match f with
  | Absent => old
  | Null => None
  | Value a => Some a
  end.

(** The parameter of the statement for a price: [float(value)] of what
    was assigned; [None] where it raises. *)
Definition bind_price (price : field number) : option (field float64) :=
  match price with
  | Absent => Some Absent
  | Null => Some Null
  | Value x =>
      match to_float x with
      | Some f => Some (Value f)
      | None => None
      end
  end.

Definition update_row (name : field string) (price : field float64)
    (description : field string) (p : Product) : option Product :=
  match assign (Product_name p) name, assign (Product_price p) price with
  | Some n, Some pr =>
      Some {| Product_id := Product_id p; Product_name := n; Product_price := pr;
              Product_description := assign_nullable (Product_description p) description |}
  | _, _ => None
  end.

(** UPDATE product SET ... WHERE id = ? *)
Fixpoint update_where (id : Z) (upd : Product -> option Product)
    (rows : list Product) : option (list Product) :=
  match rows with
  | [] => Some []
  | p :: rest =>
      match (if Product_id p =? id then upd p else Some p), update_where id upd rest with
      | Some p', Some rest' => Some (p' :: rest')
      | _, _ => None
      end
  end.

(** What a statement of the flush does: the store after it, or the
    exception it raises. *)
Inductive flushed : Type :=
| Done (db : DB)
| Failed (e : exn).

(** One statement of the flush.  The parameters are bound first, and the
    float of a price may raise there; the NOT NULL columns are checked by
    the engine when the statement runs. *)
Definition apply_write (w : write) (db : DB) : flushed :=
  match w with
  | Insert_Product o =>
      match bind_price (match obj_price o with Some x => Value x | None => Null end) with
      | None => Failed StatementError
      | Some price =>
          match obj_name o, price with
          | Some n, Value pr =>
              Done {| users := users db;
                      products := products db ++
                        [{| Product_id := next_id (map Product_id (products db));
                            Product_name := n; Product_price := pr;
                            Product_description := obj_description o |}];
                      cart_items := cart_items db |}
          | _, _ => Failed IntegrityError
          end
      end
  | Update_Product id name price description =>
      match bind_price price with
      | None => Failed StatementError
      | Some price' =>
          match update_where id (update_row name price' description) (products db) with
          | Some ps => Done {| users := users db; products := ps; cart_items := cart_items db |}
          | None => Failed IntegrityError
          end
      end
  | Delete_Product id =>
      Done {| users := users db;
              products := filter (fun p => negb (Product_id p =? id)) (products db);
              cart_items := cart_items db |}
  | Insert_CartItem u p =>
      Done {| users := users db;
              products := products db;
              cart_items := cart_items db ++
                [{| CartItem_id := next_id (map CartItem_id (cart_items db));
                    CartItem_user_id := u; CartItem_product_id := p |}] |}
  | Delete_CartItem id =>
      Done {| users := users db;
              products := products db;
              cart_items := filter (fun c => negb (CartItem_id c =? id)) (cart_items db) |}
  end.

Fixpoint flush (ws : list write) (db : DB) : flushed :=
  match ws with
  | [] => Done db
  | w :: rest =>
      match apply_write w db with
      | Done db' => flush rest db'
      | Failed e => Failed e
      end
  end.

(** The state of one request: the committed store, the writes registered
    with the session, the user id kept in the login cookie, and, to let the
    storage engine fail at any point, the number of session calls that
    still succeed ([None]: all of them). *)
Record session := {
  store : DB;
  pending : list write;
  logged_in : option Z;
  faults : option nat
}.

Inductive outcome (A : Type) : Type :=
| Returned : A -> outcome A
| Raised : exn -> outcome A.
Arguments Returned {A} _.
Arguments Raised {A} _.

Definition M (A : Type) : Type := session -> outcome A * session.

Definition ret {X} (x : X) : M X := fun s => (Returned x, s).

Definition raise {X} (e : exn) : M X := fun s => (Raised e, s).

Definition bind {X Y} (m : M X) (next : X -> M Y) : M Y :=
  fun s =>
    match m s with
    | (Returned x, s') => next x s'
    | (Raised e, s') => (Raised e, s')
    end.

Declare Scope session_scope.
Delimit Scope session_scope with session.
Notation "x <- m ;; k" := (bind m (fun x => k))
  (at level 61, m at next level, right associativity) : session_scope.
Notation "m ;; k" := (bind m (fun _ => k))
  (at level 61, right associativity) : session_scope.
Local Open Scope session_scope.

(** Every call into the session is a point where the engine may fail. *)
Definition tick : M unit := fun s =>
  match faults s with
  | None => (Returned tt, s)
  | Some O => (Raised OperationalError, s)
  | Some (S n) =>
      (Returned tt,
       {| store := store s; pending := pending s; logged_in := logged_in s;
          faults := Some n |})
  end.

(** A SELECT: no view of App.py reads after it has registered a write, so
    a read sees the committed store. *)
Definition query {A} (q : DB -> A) : M A :=
  tick ;; (fun s => (Returned (q (store s)), s)).

(** A SELECT with a key that came with the URL, as [Product.query.get(id)]
    and [filter_by(product_id=id)] are: the key is bound to the statement,
    and the bind of an integer beyond 64 bits raises. *)
Definition query_by_key {A} (key : Z) (q : DB -> A) : M A :=
  tick ;; (fun s =>
    if in_range key then (Returned (q (store s)), s) else (Raised OverflowError, s)).

(** [db.session.add], [db.session.delete], and a changed attribute of a
    loaded object: the write waits in the session. *)
Definition register (w : write) : M unit :=
  tick ;; (fun s =>
    (Returned tt,
     {| store := store s; pending := pending s ++ [w]; logged_in := logged_in s;
        faults := faults s |})).

(** [db.session.commit()]: the registered writes are flushed and made
    durable together, or not at all. *)
Definition session_commit : M unit :=
  tick ;; (fun s =>
    match flush (pending s) (store s) with
    | Done db' =>
        (Returned tt,
         {| store := db'; pending := []; logged_in := logged_in s; faults := faults s |})
    | Failed e =>
        (Raised e,
         {| store := store s; pending := []; logged_in := logged_in s; faults := faults s |})
    end).

(** [login_user] and [logout_user] *)
Definition login_user (u : User) : M unit := fun s =>
  (Returned tt,
   {| store := store s; pending := pending s; logged_in := Some (User_id u);
      faults := faults s |}).

Definition logout_user : M unit := fun s =>
  (Returned tt,
   {| store := store s; pending := pending s; logged_in := None; faults := faults s |}).

(** One request: a fresh session on the store; at teardown the session is
    removed, which drops whatever was not committed. *)
Definition run_request {A} (view : M A) (db : DB) (cookie : option Z)
    (failing : option nat) : outcome A * DB * option Z :=
  let '(r, s) := view {| store := db; pending := []; logged_in := cookie;
                         faults := failing |} in
  (r, store s, logged_in s).

Definition outcome_of {A} (x : outcome A * DB * option Z) : outcome A := fst (fst x).
Definition store_of {A} (x : outcome A * DB * option Z) : DB := snd (fst x).
Definition cookie_of {A} (x : outcome A * DB * option Z) : option Z := snd x.

(** ** Queries *)

(** [User.query.get(id)] *)
Definition User_get (id : Z) (db : DB) : option User :=
  find (fun u => User_id u =? id) (users db).

(** The product of key [id]; a key beyond 64 bits is the key of no row. *)
Definition Product_get (id : Z) (db : DB) : option Product :=
  if in_range id then find (fun p => Product_id p =? id) (products db) else None.

(** [User.query.filter_by(username=name).first()]: [username = NULL]
    selects no row of a NOT NULL column. *)
Definition User_first_by_username (name : option string) (db : DB) : option User :=
  match name with
  | None => None
  | Some n => find (fun u => String.eqb (User_username u) n) (users db)
  end.

Definition matches (user_id product_id : Z) (c : CartItem) : bool :=
  (CartItem_user_id c =? user_id)%Z && (CartItem_product_id c =? product_id)%Z.

(** [CartItem.query.filter_by(user_id=u, product_id=p).first()] *)
Definition CartItem_first (user_id product_id : Z) (db : DB) : option CartItem :=
  find (matches user_id product_id) (cart_items db).

Definition owned_by (user_id : Z) (c : CartItem) : bool :=
  (CartItem_user_id c =? user_id)%Z.

(** [user.cart]: the lazy relationship loads the user's rows. *)
Definition User_cart (u : User) (db : DB) : list CartItem :=
  filter (owned_by (User_id u)) (cart_items db).

(** [for x in l: f(x)], collecting what [f] returns. *)
Fixpoint for_each {X Y} (body : X -> M Y) (xs : list X) : M (list Y) :=
  match xs with
  | [] => ret []
  | x :: rest =>
      y <- body x ;;
      ys <- for_each body rest ;;
      ret (y :: ys)
  end.

(** Python's equality between the supplied and the stored password. *)
Definition option_string_eqb (supplied stored : option string) : bool :=
  match supplied with
  | Some typed =>
      match stored with
      | Some kept => String.eqb typed kept
      | None => false
      end
  | None =>
      match stored with
      | Some _ => false
      | None => true
      end
  end.

(** ** Authentication (lines 64-95) *)

Definition load_user (user_id : Z) : M (option User) :=
  query (User_get user_id).

Definition login (data : login_json) : M response :=
  user <- query (User_first_by_username (get (json_username data))) ;;
  match user with
  | Some u =>
      if option_string_eqb (get (json_password data)) (User_password u) then
        login_user u ;;
        ret (jsonify (Message "Login realizado com sucesso") 200)
      else ret (jsonify (Message "Credenciais inválidas") 401)
  | None => ret (jsonify (Message "Credenciais inválidas") 401)
  end.

(** [@login_required]: the view runs for the user the cookie resolves to;
    without one the caller is sent to the login view. *)
Definition unauthorized : M response :=
  ret (jsonify (Redirect "login") 302).

Definition login_required (view : Z -> M response) : M response :=
  fun s =>
    match logged_in s with
    | None => unauthorized s
    | Some uid =>
        (user <- load_user uid ;;
         match user with
         | Some u => view (User_id u)
         | None => unauthorized
         end) s
    end.

Definition logout : M response :=
  logout_user ;;
  ret (jsonify (Message "Logout realizado com sucesso") 200).

(** ** Catalog (lines 104-175) *)

Definition add_product (data : product_json) : M response :=
  if has_key (json_name data) && has_key (json_price data) then
    let product := {| obj_name := get (json_name data);
                      obj_price := get (json_price data);
                      obj_description := get_default (json_description data) "" |} in
    register (Insert_Product product) ;;
    session_commit ;;
    ret (jsonify (Message "Produto adicionado com sucesso") 200)
  else ret (jsonify (Message "Dados inválidos para o produto") 400).

Definition delete_product (product_id : Z) : M response :=
  product <- query_by_key product_id (Product_get product_id) ;;
  match product with
  | Some p =>
      register (Delete_Product (Product_id p)) ;;
      session_commit ;;
      ret (jsonify (Message "Produto deletado com sucesso") 200)
  | None => ret (jsonify (Message "Produto não encontrado") 404)
  end.

Definition get_product_details (product_id : Z) : M response :=
  product <- query_by_key product_id (Product_get product_id) ;;
  match product with
  | Some p =>
      ret (jsonify (ProductDetails (Product_id p) (Product_name p) (Product_price p)
                                   (Product_description p)) 200)
  | None => ret (jsonify (Message "Produto não encontrado") 404)
  end.

(** The three guarded assignments mark the loaded row as changed; the
    UPDATE goes out at commit. *)
Definition update_product (product_id : Z) (data : product_json) : M response :=
  product <- query_by_key product_id (Product_get product_id) ;;
  match product with
  | None => ret (jsonify (Message "Produto não encontrado") 404)
  | Some p =>
      let name := if has_key (json_name data) then json_name data else Absent in
      let price := if has_key (json_price data) then json_price data else Absent in
      let description :=
        if has_key (json_description data) then json_description data else Absent in
      register (Update_Product (Product_id p) name price description) ;;
      session_commit ;;
      ret (jsonify (Message "Produto atualizado com sucesso") 200)
  end.

Definition get_products : M response :=
  products <- query products ;;
  ret (jsonify (ProductList
         (map (fun p => (Product_id p, Product_name p, Product_price p)) products)) 200).

(** ** Cart (lines 183-251); [current_user_id] is [current_user.id], the
    key of the user [load_user] found *)

Definition add_to_cart (product_id : Z) (current_user_id : Z) : M response :=
  user <- query (User_get current_user_id) ;;
  product <- query_by_key product_id (Product_get product_id) ;;
  match user, product with
  | Some u, Some p =>
      register (Insert_CartItem (User_id u) (Product_id p)) ;;
      session_commit ;;
      ret (jsonify (Message "O Item foi adicionado com Sucesso") 200)
  | _, _ => ret (jsonify (Message "Falha ao adiciona ao Carrinho") 400)
  end.

Definition remove_from_cart (product_id : Z) (current_user_id : Z) : M response :=
  cart_item <- query_by_key product_id (CartItem_first current_user_id product_id) ;;
  match cart_item with
  | Some c =>
      register (Delete_CartItem (CartItem_id c)) ;;
      session_commit ;;
      ret (jsonify (Message "O Item foi Removido com Sucesso") 200)
  | None => ret (jsonify (Message "Falha ao Remover ao Carrinho") 400)
  end.

(** The row of the answer for one cart item; [product.name] of a product
    that [Product.query.get] did not find raises.  The key was read from
    an Integer column of the row. *)
Definition enrich (cart_item : CartItem) : M cart_entry :=
  product <- query (Product_get (CartItem_product_id cart_item)) ;;
  match product with
  | Some p =>
      ret {| entry_id := CartItem_id cart_item;
             entry_user_id := CartItem_user_id cart_item;
             entry_product_id := CartItem_product_id cart_item;
             entry_product_name := Product_name p;
             entry_product_price := Product_price p |}
  | None => raise AttributeError
  end.

Definition view_cart (current_user_id : Z) : M response :=
  user <- query (User_get current_user_id) ;;
  match user with
  | None => raise AttributeError
  | Some u =>
      cart_itens <- query (User_cart u) ;;
      cart_content <- for_each enrich cart_itens ;;
      ret (jsonify (CartContent cart_content) 200)
  end.

Definition checkout (current_user_id : Z) : M response :=
  user <- query (User_get current_user_id) ;;
  match user with
  | None => raise AttributeError
  | Some u =>
      cart_itens <- query (User_cart u) ;;
      for_each (fun cart_item => register (Delete_CartItem (CartItem_id cart_item)))
               cart_itens ;;
      session_commit ;;
      ret (jsonify (Message "Checkout com sucesso. carrinho foi limpo") 200)
  end.

(** The routes as decorated. *)
Definition logout_route : M response := login_required (fun _ => logout).
Definition add_product_route (data : product_json) : M response :=
  login_required (fun _ => add_product data).
Definition delete_product_route (product_id : Z) : M response :=
  login_required (fun _ => delete_product product_id).
Definition update_product_route (product_id : Z) (data : product_json) : M response :=
  login_required (fun _ => update_product product_id data).
Definition add_to_cart_route (product_id : Z) : M response :=
  login_required (add_to_cart product_id).
Definition remove_from_cart_route (product_id : Z) : M response :=
  login_required (remove_from_cart product_id).
Definition view_cart_route : M response := login_required view_cart.
Definition checkout_route : M response := login_required checkout.

(** The four cart operations. *)
Inductive cart_op : Type :=
| AddToCart (product_id : Z)
| RemoveFromCart (product_id : Z)
| ViewCart
| Checkout.

Definition cart_view (op : cart_op) : Z -> M response :=
  match op with
  | AddToCart product_id => add_to_cart product_id
  | RemoveFromCart product_id => remove_from_cart product_id
  | ViewCart => view_cart
  | Checkout => checkout
  end.

(** A 200 answer; a 4xx answer or an exception is a failure. *)
Definition succeeded (r : outcome response) : bool :=
  match r with
  | Returned resp => status resp =? 200
  | Raised _ => false
  end.

(** ** Vocabulary of the statements *)

(** [keeps_store m]: whatever happens, [m] leaves the committed store. *)
Definition keeps_store {A} (m : M A) : Prop :=
  forall s, store (snd (m s)) = store s.

(** [keeps_invariant m]: [m] takes a well-formed store to a well-formed one. *)
Definition keeps_invariant {A} (m : M A) : Prop :=
  forall s, wf_db (store s) -> wf_db (store (snd (m s))).

(** [all_or_nothing m]: unless [m] answers 200, the store is as before. *)
Definition all_or_nothing (m : M response) : Prop :=
  forall s, succeeded (fst (m s)) = false -> store (snd (m s)) = store s.

(** The same session with an engine that cannot fail. *)
Definition relax (s : session) : session :=
  {| store := store s; pending := pending s; logged_in := logged_in s; faults := None |}.

(** [steady m]: when [m] returns although the engine could have failed,
    it does what it does when the engine cannot fail. *)
Definition steady {A} (m : M A) : Prop :=
  forall s a s', m s = (Returned a, s') -> m (relax s) = (Returned a, relax s').

(** What [view_cart] computes for one cart item and for a list of them;
    [None] where it raises. *)
Definition entry_of (db : DB) (c : CartItem) : option cart_entry :=
  match Product_get (CartItem_product_id c) db with
  | Some p =>
      Some {| entry_id := CartItem_id c;
              entry_user_id := CartItem_user_id c;
              entry_product_id := CartItem_product_id c;
              entry_product_name := Product_name p;
              entry_product_price := Product_price p |}
  | None => None
  end.

Fixpoint entries_of (db : DB) (items : list CartItem) : option (list cart_entry) :=
  match items with
  | [] => Some []
  | c :: rest =>
      match entry_of db c, entries_of db rest with
      | Some e, Some es => Some (e :: es)
      | _, _ => None
      end
  end.

(** The cart a response shows. *)
Definition cart_content_of (r : outcome response) : option (list cart_entry) :=
  match r with
  | Returned resp =>
      match body resp with
      | CartContent es => Some es
      | _ => None
      end
  | Raised _ => None
  end.

(** [i] is one of [ids]. *)
Definition in_ids (ids : list Z) (i : Z) : bool := existsb (Z.eqb i) ids.

(** A store to run the views on: two users, two products, and a cart of
    three items for alice, two of them the same product, and one for bob. *)
Definition sample_db : DB :=
  {| users :=
       [ {| User_id := 1; User_username := "alice"; User_password := Some "secret" |};
         {| User_id := 2; User_username := "bob"; User_password := None |} ];
     products :=
       [ {| Product_id := 1; Product_name := "Pen"; Product_price := Finite (3 # 2);
            Product_description := Some "" |};
         {| Product_id := 2; Product_name := "Ink"; Product_price := Finite (4 # 1);
            Product_description := None |} ];
     cart_items :=
       [ {| CartItem_id := 1; CartItem_user_id := 1; CartItem_product_id := 1 |};
         {| CartItem_id := 2; CartItem_user_id := 2; CartItem_product_id := 1 |};
         {| CartItem_id := 3; CartItem_user_id := 1; CartItem_product_id := 1 |};
         {| CartItem_id := 4; CartItem_user_id := 1; CartItem_product_id := 2 |} ] |}.

(** The entries of a cart that reference a product. *)
Definition referencing (product_id : Z) (es : list cart_entry) : list cart_entry :=
  filter (fun e => entry_product_id e =? product_id) es.

(** The supplied pair is the username and the stored password of [u];
    a key that is absent or null reads as [None], as a NULL password does. *)
Definition credentials_of (data : login_json) (u : User) : Prop :=
  get (json_username data) = Some (User_username u) /\
  get (json_password data) = User_password u.

(** The row an UPDATE leaves, when no NOT NULL column is set to null. *)
Definition updated_row (name : field string) (price : field float64)
    (description : field string) (p : Product) : Product :=
  {| Product_id := Product_id p;
     Product_name := match name with Value n => n | _ => Product_name p end;
     Product_price := match price with Value q => q | _ => Product_price p end;
     Product_description := assign_nullable (Product_description p) description |}.

(** The entry of a cart for a product whose name and price were set. *)
Definition refreshed (product_id : Z) (name : string) (price : float64)
    (e : cart_entry) :
    cart_entry :=
  if entry_product_id e =? product_id then
    {| entry_id := entry_id e; entry_user_id := entry_user_id e;
       entry_product_id := entry_product_id e;
       entry_product_name := name; entry_product_price := price |}
  else e.

(** An entry shows a cart item with the catalog's values for its product. *)
Definition shows (db : DB) (c : CartItem) (e : cart_entry) : Prop :=
  entry_id e = CartItem_id c /\
  entry_user_id e = CartItem_user_id c /\
  entry_product_id e = CartItem_product_id c /\
  exists p, Product_get (CartItem_product_id c) db = Some p /\
            entry_product_name e = Product_name p /\
            entry_product_price e = Product_price p.

(** ** The application as a whole *)

(** The requests the routes of App.py answer. *)
Inductive request : Type :=
| Login (data : login_json)
| Logout
| AddProduct (data : product_json)
| DeleteProduct (product_id : Z)
| GetProduct (product_id : Z)
| UpdateProduct (product_id : Z) (data : product_json)
| ListProducts
| Cart (op : cart_op).

(** Each request goes to its view, decorated as in the source: [login],
    [get_product_details] and [get_products] are open, the rest sit behind
    [@login_required]. *)
Definition route (rq : request) : M response :=
  match rq with
  | Login data => login data
  | Logout => logout_route
  | AddProduct data => add_product_route data
  | DeleteProduct product_id => delete_product_route product_id
  | GetProduct product_id => get_product_details product_id
  | UpdateProduct product_id data => update_product_route product_id data
  | ListProducts => get_products
  | Cart op => login_required (cart_view op)
  end.

(** One request of a client that keeps its cookie, with the point where the
    engine fails under it, if any: the store and the cookie afterwards. *)
Definition step (st : DB * option Z) (call : request * option nat) : DB * option Z :=
  (store_of (run_request (route (fst call)) (fst st) (snd st) (snd call)),
   cookie_of (run_request (route (fst call)) (fst st) (snd st) (snd call))).

(** A client's requests, one after the other. *)
Definition serve (calls : list (request * option nat)) (st : DB * option Z) :
    DB * option Z :=
  fold_left step calls st.

(** The ways one request can change the store. *)
Inductive transition (db : DB) : DB -> Prop :=
| unchanged : transition db db
| product_added (n : string) (pr : float64) (d : option string) :
    transition db
      {| users := users db;
         products := products db ++
           [{| Product_id := next_id (map Product_id (products db));
               Product_name := n; Product_price := pr; Product_description := d |}];
         cart_items := cart_items db |}
| products_updated (ps : list Product) :
    map Product_id ps = map Product_id (products db) ->
    transition db {| users := users db; products := ps; cart_items := cart_items db |}
| product_deleted (id : Z) :
    transition db
      {| users := users db;
         products := filter (fun q => negb (Product_id q =? id)) (products db);
         cart_items := cart_items db |}
| item_added (u : User) (p : Product) :
    User_get (User_id u) db = Some u ->
    Product_get (Product_id p) db = Some p ->
    transition db
      {| users := users db; products := products db;
         cart_items := cart_items db ++
           [{| CartItem_id := next_id (map CartItem_id (cart_items db));
               CartItem_user_id := User_id u; CartItem_product_id := Product_id p |}] |}
| items_deleted (keep : CartItem -> bool) :
    transition db
      {| users := users db; products := products db;
         cart_items := filter keep (cart_items db) |}.

(** The one request that can open a session. *)
Definition is_login (rq : request) : bool :=
  match rq with
  | Login _ => true
  | _ => false
  end.

(** Every cart item belongs to a user of the User table. *)
Definition owners_exist (db : DB) : Prop :=
  forall c, In c (cart_items db) -> exists u, User_get (CartItem_user_id c) db = Some u.



(** [remove_from_cart] called [n] times in a row by the same user. *)
Fixpoint remove_repeatedly (n : nat) (product_id cur : Z) (db : DB) : DB :=
  match n with
  | O => db
  | S k =>
      remove_repeatedly k product_id cur
        (store_of (run_request (remove_from_cart product_id cur) db None None))
  end.

(** ** Tables as lists of rows *)

Section Rows.
Context {Row : Type}.
Implicit Types (keep also : Row -> bool) (rows before after : list Row) (r : Row).

Lemma filter_twice keep also rows :
  filter also (filter keep rows) = filter (fun r => keep r && also r) rows.
Proof.
  induction rows as [|r rows IHrows]; [reflexivity|]. simpl.
  destruct (keep r); simpl; [destruct (also r)|]; now rewrite IHrows.
Qed.

Lemma filter_everything keep rows :
  (forall r, In r rows -> keep r = true) -> filter keep rows = rows.
Proof.
  intros Hall. induction rows as [|r rows IHrows]; [reflexivity|]. simpl.
  rewrite (Hall r (or_introl eq_refl)). f_equal.
  apply IHrows. intros r' Hr'. apply Hall. now right.
Qed.

Lemma filter_nothing keep rows :
  (forall r, In r rows -> keep r = false) -> filter keep rows = [].
Proof.
  intros Hall. induction rows as [|r rows IHrows]; [reflexivity|]. simpl.
  rewrite (Hall r (or_introl eq_refl)).
  apply IHrows. intros r' Hr'. apply Hall. now right.
Qed.

(** The first match of a scan, and the rows the scan passed over. *)
Lemma first_match_split keep rows r :
  find keep rows = Some r ->
  exists before after,
    rows = before ++ r :: after /\ keep r = true /\
    (forall r', In r' before -> keep r' = false).
Proof.
  induction rows as [|r0 rows IHrows]; simpl; [discriminate|].
  destruct (keep r0) eqn:Hr0; intros Hfound.
  - injection Hfound as ->. exists [], rows. repeat split; [exact Hr0|intros r' []].
  - destruct (IHrows Hfound) as (before & after & -> & Hr & Hbefore).
    exists (r0 :: before), after. repeat split; [exact Hr|].
    intros r' [<-|Hr']; [exact Hr0|apply Hbefore, Hr'].
Qed.

Lemma find_past keep before after :
  (forall r, In r before -> keep r = false) ->
  find keep (before ++ after) = find keep after.
Proof.
  intros Hall. induction before as [|r before IHbefore]; [reflexivity|]. simpl.
  rewrite (Hall r (or_introl eq_refl)).
  apply IHbefore. intros r' Hr'. apply Hall. now right.
Qed.

Lemma find_app_found keep before after r :
  find keep before = Some r -> find keep (before ++ after) = Some r.
Proof.
  induction before as [|r0 before IHbefore]; simpl; [discriminate|].
  destruct (keep r0); [trivial|exact IHbefore].
Qed.

(** Under a unique key, two rows with the same key are one row. *)
Lemma same_key_same_row {Key : Type} (key : Row -> Key) rows r r' :
  NoDup (map key rows) -> In r rows -> In r' rows -> key r = key r' -> r = r'.
Proof.
  induction rows as [|r0 rows IHrows]; simpl; intros Hunique Hr Hr' Hsame; [contradiction|].
  inversion Hunique as [|? ? Hfresh Hrest]; subst.
  destruct Hr as [<-|Hr], Hr' as [<-|Hr']; try reflexivity.
  - exfalso. apply Hfresh. rewrite Hsame. apply in_map, Hr'.
  - exfalso. apply Hfresh. rewrite <- Hsame. apply in_map, Hr.
  - apply IHrows; assumption.
Qed.

(** A DELETE keeps the key unique. *)
Lemma unique_after_delete {Key : Type} (key : Row -> Key) keep rows :
  NoDup (map key rows) -> NoDup (map key (filter keep rows)).
Proof.
  induction rows as [|r rows IHrows]; simpl; intros Hunique; [constructor|].
  inversion Hunique as [|? ? Hfresh Hrest]; subst.
  destruct (keep r); simpl; [|exact (IHrows Hrest)].
  constructor; [|exact (IHrows Hrest)].
  intros Hin. apply Hfresh. apply in_map_iff in Hin as (r' & Hkey & Hin).
  apply filter_In in Hin as [Hin _]. rewrite <- Hkey. apply in_map, Hin.
Qed.
End Rows.

Lemma fold_max_bounds (i : Z) (rest : list Z) :
  i <= fold_right Z.max i rest /\ (forall j, In j rest -> j <= fold_right Z.max i rest).
Proof.
  induction rest as [|k rest [IHi IHr]]; simpl.
  - split; [lia|intros j []].
  - split; [lia|]. intros j [<-|Hj]; [lia|]. specialize (IHr j Hj). lia.
Qed.

Lemma next_id_above (ids : list Z) (i : Z) : In i ids -> i < next_id ids.
Proof.
  destruct ids as [|k rest]; [intros []|].
  destruct (fold_max_bounds k rest) as [Hk Hr].
  unfold next_id.
  intros [<-|Hi]; [lia|]. specialize (Hr i Hi). lia.
Qed.

Lemma next_id_fresh (ids : list Z) : ~ In (next_id ids) ids.
Proof. intros H. apply next_id_above in H. lia. Qed.

(** ** Lookups *)

Lemma User_get_id (id : Z) (db : DB) (u : User) :
  User_get id db = Some u -> User_id u = id /\ In u (users db).
Proof.
  unfold User_get. intros H. apply find_some in H as [Hin Heq].
  split; [lia|exact Hin].
Qed.

Lemma Product_get_id (id : Z) (db : DB) (p : Product) :
  Product_get id db = Some p -> Product_id p = id /\ In p (products db).
Proof.
  unfold Product_get. destruct (in_range id); [|discriminate].
  intros H. apply find_some in H as [Hin Heq].
  split; [lia|exact Hin].
Qed.

Lemma Product_get_in_range (id : Z) (db : DB) (p : Product) :
  Product_get id db = Some p -> in_range id = true.
Proof. unfold Product_get. destruct (in_range id); [reflexivity|discriminate]. Qed.

Lemma Product_get_none (id : Z) (db : DB) :
  ~ In id (map Product_id (products db)) -> Product_get id db = None.
Proof.
  unfold Product_get. intros H. destruct (in_range id); [|reflexivity].
  destruct (find _ _) eqn:Hf; [|reflexivity].
  apply find_some in Hf as [Hin Heq]. exfalso. apply H.
  apply in_map_iff. exists p. split; [lia|exact Hin].
Qed.

Lemma Product_get_products (id : Z) (db db' : DB) :
  products db' = products db -> Product_get id db' = Product_get id db.
Proof. unfold Product_get. intros ->. reflexivity. Qed.

(** ** Which computations touch the store *)

Lemma keeps_ret {X} (x : X) : keeps_store (ret x).
Proof. intros s. reflexivity. Qed.

Lemma keeps_raise {X} (e : exn) : keeps_store (@raise X e).
Proof. intros s. reflexivity. Qed.

Lemma keeps_tick : keeps_store tick.
Proof. intros s. unfold tick. destruct (faults s) as [[|n]|]; reflexivity. Qed.

Lemma keeps_bind {X Y} (m : M X) (next : X -> M Y) :
  keeps_store m -> (forall x, keeps_store (next x)) -> keeps_store (bind m next).
Proof.
  intros Hm Hnext s. unfold bind. specialize (Hm s).
  destruct (m s) as [[x|e] s']; simpl in *; [|exact Hm].
  rewrite Hnext. exact Hm.
Qed.

Lemma keeps_query {X} (q : DB -> X) : keeps_store (query q).
Proof.
  unfold query. apply keeps_bind; [apply keeps_tick|].
  intros _ s. reflexivity.
Qed.

Lemma keeps_query_by_key {X} (key : Z) (q : DB -> X) : keeps_store (query_by_key key q).
Proof.
  unfold query_by_key. apply keeps_bind; [apply keeps_tick|].
  intros _ s. destruct (in_range key); reflexivity.
Qed.

Lemma keeps_register (w : write) : keeps_store (register w).
Proof.
  unfold register. apply keeps_bind; [apply keeps_tick|].
  intros _ s. reflexivity.
Qed.

Lemma keeps_for_each {X Y} (body : X -> M Y) (xs : list X) :
  (forall x, keeps_store (body x)) -> keeps_store (for_each body xs).
Proof.
  intros Hbody. induction xs as [|x xs IHxs]; simpl.
  - intros s. reflexivity.
  - apply keeps_bind; [apply Hbody|]. intros y.
    apply keeps_bind; [exact IHxs|]. intros ys s. reflexivity.
Qed.

Lemma steady_ret {X} (x : X) : steady (ret x).
Proof. intros s x' s' H. injection H as <- <-. reflexivity. Qed.

Lemma steady_raise {X} (e : exn) : steady (@raise X e).
Proof. intros s x s' H. discriminate H. Qed.

Lemma steady_bind {X Y} (m : M X) (next : X -> M Y) :
  steady m -> (forall x, steady (next x)) -> steady (bind m next).
Proof.
  intros Hm Hnext s y s''. unfold bind.
  destruct (m s) as [[x|e] s'] eqn:Hms; [|discriminate].
  intros Hrest. rewrite (Hm _ _ _ Hms). apply Hnext, Hrest.
Qed.

Lemma steady_for_each {X Y} (body : X -> M Y) (xs : list X) :
  (forall x, steady (body x)) -> steady (for_each body xs).
Proof.
  intros Hbody. induction xs as [|x xs IHxs]; simpl.
  - apply steady_ret.
  - apply steady_bind; [apply Hbody|]. intros y.
    apply steady_bind; [exact IHxs|]. intros ys. apply steady_ret.
Qed.

Lemma steady_tick : steady tick.
Proof.
  intros s x s'. unfold tick, relax.
  destruct (faults s) as [[|n]|]; simpl; intros H; try discriminate;
    injection H as <- <-; reflexivity.
Qed.

Lemma steady_query {X} (q : DB -> X) : steady (query q).
Proof.
  unfold query. apply steady_bind; [apply steady_tick|].
  intros _ s x s' H. injection H as <- <-. reflexivity.
Qed.

Lemma steady_query_by_key {X} (key : Z) (q : DB -> X) : steady (query_by_key key q).
Proof.
  unfold query_by_key. apply steady_bind; [apply steady_tick|].
  intros _ s x s'. destruct (in_range key); intros H; [|discriminate].
  injection H as <- <-. reflexivity.
Qed.

Lemma steady_register (w : write) : steady (register w).
Proof.
  unfold register. apply steady_bind; [apply steady_tick|].
  intros _ s x s' H. injection H as <- <-. reflexivity.
Qed.

Lemma steady_commit : steady session_commit.
Proof.
  unfold session_commit. apply steady_bind; [apply steady_tick|].
  intros _ s x s'. simpl.
  destruct (flush (pending s) (store s)); intros H; [|discriminate].
  injection H as <- <-. reflexivity.
Qed.

Lemma keeps_all_or_nothing (m : M response) : keeps_store m -> all_or_nothing m.
Proof. intros H s _. apply H. Qed.

Lemma bind_all_or_nothing {X} (m : M X) (next : X -> M response) :
  keeps_store m -> (forall x, all_or_nothing (next x)) -> all_or_nothing (bind m next).
Proof.
  intros Hm Hnext s. unfold bind. specialize (Hm s).
  destruct (m s) as [[x|e] s']; simpl in *; [|intros _; exact Hm].
  intros Hfailed. rewrite (Hnext x s' Hfailed). exact Hm.
Qed.

(** The tail of every writing view: commit, then answer 200. *)
Lemma commit_all_or_nothing (p : payload) :
  all_or_nothing (session_commit ;; ret (jsonify p 200)).
Proof.
  intros s. unfold session_commit, bind, tick, ret.
  destruct (faults s) as [[|n]|]; simpl;
    try (destruct (flush (pending s) (store s)); simpl);
    intros H; try reflexivity; discriminate H.
Qed.

Create HintDb session.
#[local] Hint Resolve keeps_ret keeps_raise keeps_tick keeps_query keeps_query_by_key
  keeps_register steady_ret steady_raise steady_tick steady_query steady_query_by_key
  steady_register steady_commit commit_all_or_nothing : session.

Lemma view_cart_keeps_store (cur : Z) : keeps_store (view_cart cur).
Proof.
  unfold view_cart.
  apply keeps_bind; [auto with session|]. intros [u|]; [|auto with session].
  apply keeps_bind; [auto with session|]. intros l.
  apply keeps_bind; [|auto with session].
  apply keeps_for_each. intros c. unfold enrich.
  apply keeps_bind; [auto with session|]. intros [p|]; auto with session.
Qed.

Lemma cart_view_all_or_nothing (op : cart_op) (cur : Z) :
  all_or_nothing (cart_view op cur).
Proof.
  destruct op as [pid|pid| |]; simpl.
  - unfold add_to_cart.
    apply bind_all_or_nothing; [auto with session|]. intros [u|];
      (apply bind_all_or_nothing; [auto with session|]); intros [p|];
      try (apply keeps_all_or_nothing; solve [auto with session]).
    apply bind_all_or_nothing; auto with session.
  - unfold remove_from_cart.
    apply bind_all_or_nothing; [auto with session|]. intros [c|].
    + apply bind_all_or_nothing; auto with session.
    + apply keeps_all_or_nothing; auto with session.
  - apply keeps_all_or_nothing, view_cart_keeps_store.
  - unfold checkout.
    apply bind_all_or_nothing; [auto with session|]. intros [u|];
      [|apply keeps_all_or_nothing; auto with session].
    apply bind_all_or_nothing; [auto with session|]. intros l.
    apply bind_all_or_nothing; [|auto with session].
    apply keeps_for_each. auto with session.
Qed.

Lemma cart_view_steady (op : cart_op) (cur : Z) : steady (cart_view op cur).
Proof.
  destruct op as [pid|pid| |]; simpl.
  - unfold add_to_cart.
    apply steady_bind; [auto with session|]. intros [u|];
      (apply steady_bind; [auto with session|]); intros [p|]; auto with session.
    repeat (apply steady_bind; [auto with session|]; intros _). auto with session.
  - unfold remove_from_cart.
    apply steady_bind; [auto with session|]. intros [c|]; auto with session.
    repeat (apply steady_bind; [auto with session|]; intros _). auto with session.
  - unfold view_cart.
    apply steady_bind; [auto with session|]. intros [u|]; [|auto with session].
    apply steady_bind; [auto with session|]. intros l.
    apply steady_bind; [|auto with session].
    apply steady_for_each. intros c. unfold enrich.
    apply steady_bind; [auto with session|]. intros [p|]; auto with session.
  - unfold checkout.
    apply steady_bind; [auto with session|]. intros [u|]; [|auto with session].
    apply steady_bind; [auto with session|]. intros l.
    apply steady_bind; [apply steady_for_each; auto with session|]. intros _.
    apply steady_bind; auto with session.
Qed.

(** ** The views with the engine working *)

Lemma for_each_enrich_run (l : list CartItem) (st : DB) (pe : list write) (lg : option Z) :
  for_each enrich l {| store := st; pending := pe; logged_in := lg; faults := None |} =
  (match entries_of st l with
   | Some es => Returned es
   | None => Raised AttributeError
   end,
   {| store := st; pending := pe; logged_in := lg; faults := None |}).
Proof.
  induction l as [|c l IH]; simpl; [reflexivity|].
  unfold bind at 1. unfold enrich at 1, entry_of, query, bind, tick, ret, raise. simpl.
  destruct (Product_get (CartItem_product_id c) st) as [p|]; [|reflexivity].
  unfold bind in IH |- *. rewrite IH.
  destruct (entries_of st l); reflexivity.
Qed.

Lemma for_each_delete_run (l : list CartItem) (st : DB) (pe : list write) (lg : option Z) :
  for_each (fun c => register (Delete_CartItem (CartItem_id c))) l
    {| store := st; pending := pe; logged_in := lg; faults := None |} =
  (Returned (map (fun _ => tt) l),
   {| store := st; pending := pe ++ map (fun c => Delete_CartItem (CartItem_id c)) l;
      logged_in := lg; faults := None |}).
Proof.
  revert pe. induction l as [|c l IH]; intros pe; simpl.
  - rewrite app_nil_r. reflexivity.
  - unfold bind at 1. unfold register at 1, bind, tick. simpl.
    unfold bind in IH. rewrite IH. unfold ret. rewrite <- app_assoc. reflexivity.
Qed.

Lemma flush_deletes (l : list CartItem) (db : DB) :
  flush (map (fun c => Delete_CartItem (CartItem_id c)) l) db =
  Done {| users := users db; products := products db;
          cart_items := filter (fun c => negb (in_ids (map CartItem_id l) (CartItem_id c)))
                               (cart_items db) |}.
Proof.
  revert db. induction l as [|d l IH]; intros db; simpl.
  - rewrite filter_everything by reflexivity. destruct db; reflexivity.
  - rewrite IH. simpl. rewrite filter_twice. do 2 f_equal.
    apply filter_ext. intros c. rewrite negb_orb. reflexivity.
Qed.

Lemma view_cart_run (db : DB) (cookie : option Z) (cur : Z) :
  run_request (view_cart cur) db cookie None =
  (match User_get cur db with
   | None => Raised AttributeError
   | Some u =>
       match entries_of db (User_cart u db) with
       | Some es => Returned (jsonify (CartContent es) 200)
       | None => Raised AttributeError
       end
   end, db, cookie).
Proof.
  unfold run_request, view_cart, query, bind, tick, ret, raise. simpl.
  destruct (User_get cur db) as [u|]; [simpl|reflexivity].
  pose proof (for_each_enrich_run (User_cart u db) db [] cookie) as H.
  unfold bind in H. rewrite H.
  destruct (entries_of db (User_cart u db)); reflexivity.
Qed.

Lemma checkout_run (db : DB) (cookie : option Z) (cur : Z) :
  run_request (checkout cur) db cookie None =
  match User_get cur db with
  | None => (Raised AttributeError, db, cookie)
  | Some u =>
      (Returned (jsonify (Message "Checkout com sucesso. carrinho foi limpo") 200),
       {| users := users db; products := products db;
          cart_items :=
            filter (fun c => negb (in_ids (map CartItem_id (User_cart u db)) (CartItem_id c)))
                   (cart_items db) |},
       cookie)
  end.
Proof.
  unfold run_request, checkout, query, bind, tick, ret, raise. simpl.
  destruct (User_get cur db) as [u|]; [simpl|reflexivity].
  pose proof (for_each_delete_run (User_cart u db) db [] cookie) as H.
  unfold bind in H. rewrite H. unfold session_commit, bind, tick. simpl.
  rewrite flush_deletes. reflexivity.
Qed.

Lemma in_ids_spec (ids : list Z) (i : Z) : in_ids ids i = true <-> In i ids.
Proof.
  unfold in_ids. rewrite existsb_exists. split.
  - intros (j & Hj & Heq). apply Z.eqb_eq in Heq. subst. exact Hj.
  - intros H. exists i. split; [exact H|apply Z.eqb_refl].
Qed.

Ltac run_view :=
  unfold run_request, query, query_by_key, register, session_commit, login_user,
    logout_user, bind, tick, ret, raise;
  simpl.

Lemma add_to_cart_run (db : DB) (cookie : option Z) (product_id cur : Z) :
  run_request (add_to_cart product_id cur) db cookie None =
  match User_get cur db, Product_get product_id db with
  | Some u, Some p =>
      (Returned (jsonify (Message "O Item foi adicionado com Sucesso") 200),
       {| users := users db; products := products db;
          cart_items := cart_items db ++
            [{| CartItem_id := next_id (map CartItem_id (cart_items db));
                CartItem_user_id := User_id u; CartItem_product_id := Product_id p |}] |},
       cookie)
  | _, _ =>
      if in_range product_id
      then (Returned (jsonify (Message "Falha ao adiciona ao Carrinho") 400), db, cookie)
      else (Raised OverflowError, db, cookie)
  end.
Proof.
  unfold add_to_cart. run_view.
  destruct (Product_get product_id db) as [p|] eqn:Hp.
  - rewrite (Product_get_in_range _ _ _ Hp). destruct (User_get cur db); reflexivity.
  - destruct (User_get cur db), (in_range product_id); reflexivity.
Qed.

Lemma remove_from_cart_run (db : DB) (cookie : option Z) (product_id cur : Z) :
  run_request (remove_from_cart product_id cur) db cookie None =
  if in_range product_id then
    match CartItem_first cur product_id db with
    | Some c =>
        (Returned (jsonify (Message "O Item foi Removido com Sucesso") 200),
         {| users := users db; products := products db;
            cart_items :=
              filter (fun d => negb (CartItem_id d =? CartItem_id c)) (cart_items db) |},
         cookie)
    | None => (Returned (jsonify (Message "Falha ao Remover ao Carrinho") 400), db, cookie)
    end
  else (Raised OverflowError, db, cookie).
Proof.
  unfold remove_from_cart. run_view.
  destruct (in_range product_id); [|reflexivity].
  destruct (CartItem_first cur product_id db); reflexivity.
Qed.

Lemma delete_product_run (db : DB) (cookie : option Z) (product_id : Z) :
  run_request (delete_product product_id) db cookie None =
  match Product_get product_id db with
  | Some p =>
      (Returned (jsonify (Message "Produto deletado com sucesso") 200),
       {| users := users db;
          products := filter (fun q => negb (Product_id q =? Product_id p)) (products db);
          cart_items := cart_items db |},
       cookie)
  | None =>
      if in_range product_id
      then (Returned (jsonify (Message "Produto não encontrado") 404), db, cookie)
      else (Raised OverflowError, db, cookie)
  end.
Proof.
  unfold delete_product. run_view.
  destruct (Product_get product_id db) as [p|] eqn:Hp.
  - rewrite (Product_get_in_range _ _ _ Hp). reflexivity.
  - destruct (in_range product_id); reflexivity.
Qed.

Lemma get_product_details_run (db : DB) (cookie : option Z) (product_id : Z) :
  run_request (get_product_details product_id) db cookie None =
  (match Product_get product_id db with
   | Some p =>
       Returned (jsonify (ProductDetails (Product_id p) (Product_name p) (Product_price p)
                                         (Product_description p)) 200)
   | None =>
       if in_range product_id
       then Returned (jsonify (Message "Produto não encontrado") 404)
       else Raised OverflowError
   end, db, cookie).
Proof.
  unfold get_product_details. run_view.
  destruct (Product_get product_id db) as [p|] eqn:Hp.
  - rewrite (Product_get_in_range _ _ _ Hp). reflexivity.
  - destruct (in_range product_id); reflexivity.
Qed.

Lemma add_product_run (db : DB) (cookie : option Z) (data : product_json) :
  run_request (add_product data) db cookie None =
  match json_name data, json_price data with
  | Absent, _ | _, Absent =>
      (Returned (jsonify (Message "Dados inválidos para o produto") 400), db, cookie)
  | _, Null => (Raised IntegrityError, db, cookie)
  | name, Value x =>
      match to_float x with
      | None => (Raised StatementError, db, cookie)
      | Some pr =>
          match name with
          | Value n =>
              (Returned (jsonify (Message "Produto adicionado com sucesso") 200),
               {| users := users db;
                  products := products db ++
                    [{| Product_id := next_id (map Product_id (products db));
                        Product_name := n; Product_price := pr;
                        Product_description := get_default (json_description data) "" |}];
                  cart_items := cart_items db |},
               cookie)
          | _ => (Raised IntegrityError, db, cookie)
          end
      end
  end.
Proof.
  unfold add_product.
  destruct (json_name data), (json_price data) as [| |x]; run_view; try reflexivity;
    destruct (to_float x); reflexivity.
Qed.

Lemma guarded_field {A} (f : field A) : (if has_key f then f else Absent) = f.
Proof. destruct f; reflexivity. Qed.

Lemma update_product_run (db : DB) (cookie : option Z) (product_id : Z) (data : product_json) :
  run_request (update_product product_id data) db cookie None =
  match Product_get product_id db with
  | None =>
      if in_range product_id
      then (Returned (jsonify (Message "Produto não encontrado") 404), db, cookie)
      else (Raised OverflowError, db, cookie)
  | Some p =>
      match bind_price (json_price data) with
      | None => (Raised StatementError, db, cookie)
      | Some price =>
          match update_where (Product_id p)
                  (update_row (json_name data) price (json_description data))
                  (products db) with
          | Some ps =>
              (Returned (jsonify (Message "Produto atualizado com sucesso") 200),
               {| users := users db; products := ps; cart_items := cart_items db |},
               cookie)
          | None => (Raised IntegrityError, db, cookie)
          end
      end
  end.
Proof.
  unfold update_product. rewrite !guarded_field. run_view.
  destruct (Product_get product_id db) as [p|] eqn:Hp.
  - rewrite (Product_get_in_range _ _ _ Hp). simpl.
    destruct (bind_price (json_price data)) as [price|]; [|reflexivity].
    destruct (update_where _ _ _); reflexivity.
  - destruct (in_range product_id); reflexivity.
Qed.

Lemma login_run (db : DB) (cookie : option Z) (data : login_json) :
  run_request (login data) db cookie None =
  match User_first_by_username (get (json_username data)) db with
  | Some u =>
      if option_string_eqb (get (json_password data)) (User_password u)
      then (Returned (jsonify (Message "Login realizado com sucesso") 200), db,
            Some (User_id u))
      else (Returned (jsonify (Message "Credenciais inválidas") 401), db, cookie)
  | None => (Returned (jsonify (Message "Credenciais inválidas") 401), db, cookie)
  end.
Proof.
  unfold login. run_view.
  destruct (User_first_by_username _ db) as [u|]; [simpl|reflexivity].
  destruct (option_string_eqb _ _); reflexivity.
Qed.

Lemma entries_of_products (db db' : DB) (l : list CartItem) :
  products db' = products db -> entries_of db' l = entries_of db l.
Proof.
  intros H. induction l as [|c l IH]; simpl; [reflexivity|].
  rewrite IH. unfold entry_of, Product_get. rewrite H. reflexivity.
Qed.

Lemma entries_of_app (db : DB) (l1 l2 : list CartItem) :
  entries_of db (l1 ++ l2) =
  match entries_of db l1, entries_of db l2 with
  | Some a, Some b => Some (a ++ b)
  | _, _ => None
  end.
Proof.
  induction l1 as [|c l1 IH]; simpl.
  - destruct (entries_of db l2); reflexivity.
  - rewrite IH. destruct (entry_of db c), (entries_of db l1), (entries_of db l2); reflexivity.
Qed.

Lemma referencing_app (P : Z) (es1 es2 : list cart_entry) :
  referencing P (es1 ++ es2) = referencing P es1 ++ referencing P es2.
Proof. apply filter_app. Qed.

(** C2: for every user U that resolves and every cart state, [checkout]
    answers 200 and leaves no CartItem owned by U, and a [view_cart] of U
    served right after it returns the empty sequence. *)
Theorem checkout_then_view_cart_empty :
  forall (db : DB) (cookie : option Z) (U : Z) (u : User),
    User_get U db = Some u ->
    outcome_of (run_request (checkout U) db cookie None) =
      Returned (jsonify (Message "Checkout com sucesso. carrinho foi limpo") 200) /\
    filter (owned_by U)
      (cart_items (store_of (run_request (checkout U) db cookie None))) = [] /\
    outcome_of (run_request (view_cart U)
                  (store_of (run_request (checkout U) db cookie None)) cookie None) =
      Returned (jsonify (CartContent []) 200).
Proof.
  intros db cookie U u Hu.
  rewrite checkout_run, Hu. unfold outcome_of, store_of. simpl.
  destruct (User_get_id _ _ _ Hu) as [Hid _].
  pose (gone := map CartItem_id (User_cart u db)).
  fold gone.
  assert (Hnone : filter (owned_by U)
            (filter (fun c => negb (in_ids gone (CartItem_id c))) (cart_items db)) = []).
  { apply filter_nothing. intros c Hc. apply filter_In in Hc as [Hin Hout].
    destruct (owned_by U c) eqn:Hown; [|reflexivity].
    exfalso. apply negb_true_iff in Hout.
    assert (Hmem : in_ids gone (CartItem_id c) = true).
    { apply in_ids_spec, in_map. unfold User_cart. apply filter_In.
      rewrite Hid. split; assumption. }
    rewrite Hmem in Hout. discriminate. }
  repeat split; [exact Hnone|].
  rewrite view_cart_run. simpl.
  unfold User_get in *. simpl. rewrite Hu.
  unfold User_cart. simpl. rewrite Hid, Hnone. reflexivity.
Qed.

Lemma checkout_then_view_cart_empty_witness :
  User_get 1 sample_db =
    Some {| User_id := 1; User_username := "alice"; User_password := Some "secret" |} /\
  outcome_of (run_request (view_cart 1)
                (store_of (run_request (checkout 1) sample_db None None)) None None) =
    Returned (jsonify (CartContent []) 200).
Proof.
  split; [reflexivity|].
  apply (checkout_then_view_cart_empty sample_db None 1
           {| User_id := 1; User_username := "alice"; User_password := Some "secret" |}).
  reflexivity.
Defined.

(** C8, as the code has it: [delete_product] on an id within 64 bits
    that does not resolve answers 404 and leaves the three tables as they
    were; on an id that resolves it answers 200 and removes the product, the
    CartItem and User tables untouched, whatever CartItems reference the
    product. *)
Theorem delete_product_spec :
  forall (db : DB) (cookie : option Z) (id : Z),
    (in_range id = true -> Product_get id db = None ->
       outcome_of (run_request (delete_product id) db cookie None) =
         Returned (jsonify (Message "Produto não encontrado") 404) /\
       store_of (run_request (delete_product id) db cookie None) = db) /\
    (forall p, Product_get id db = Some p ->
       outcome_of (run_request (delete_product id) db cookie None) =
         Returned (jsonify (Message "Produto deletado com sucesso") 200) /\
       Product_get id (store_of (run_request (delete_product id) db cookie None)) = None /\
       products (store_of (run_request (delete_product id) db cookie None)) =
         filter (fun q => negb (Product_id q =? id)) (products db) /\
       cart_items (store_of (run_request (delete_product id) db cookie None)) =
         cart_items db /\
       users (store_of (run_request (delete_product id) db cookie None)) = users db).
Proof.
  intros db cookie id. rewrite delete_product_run. split.
  - intros -> ->. split; reflexivity.
  - intros p Hp. rewrite Hp. unfold outcome_of, store_of. simpl.
    destruct (Product_get_id _ _ _ Hp) as [-> _].
    repeat split.
    apply Product_get_none. simpl. intros Hin.
    apply in_map_iff in Hin as (q & Hq & Hin). apply filter_In in Hin as [_ Hne].
    rewrite Hq, Z.eqb_refl in Hne. discriminate.
Qed.

Lemma delete_product_spec_witness :
  cart_items (store_of (run_request (delete_product 1) sample_db None None)) =
    cart_items sample_db /\
  Product_get 1 (store_of (run_request (delete_product 1) sample_db None None)) = None /\
  store_of (run_request (delete_product 7) sample_db None None) = sample_db.
Proof.
  destruct (delete_product_spec sample_db None 1) as [_ Hfound].
  destruct (delete_product_spec sample_db None 7) as [Hmissing _].
  destruct (Hfound {| Product_id := 1; Product_name := "Pen"; Product_price := Finite (3 # 2);
                      Product_description := Some "" |} eq_refl)
    as (_ & Hgone & _ & Hcart & _).
  destruct (Hmissing eq_refl eq_refl) as [_ Hsame].
  repeat split; assumption.
Defined.

(** The route takes any run of digits as the id; one beyond 64 bits does
    not resolve, and the lookup raises instead of answering 404. *)
Lemma delete_product_beyond_64_bits_counterexample :
  Product_get 9223372036854775808 sample_db = None /\
  outcome_of (run_request (delete_product 9223372036854775808) sample_db None None) =
    Raised OverflowError /\
  outcome_of (run_request (delete_product 9223372036854775808) sample_db None None) <>
    Returned (jsonify (Message "Produto não encontrado") 404).
Proof. repeat split. discriminate. Qed.

Lemma referencing_one (P : Z) (e : cart_entry) :
  entry_product_id e = P -> referencing P [e] = [e].
Proof. intros H. unfold referencing. simpl. rewrite H, Z.eqb_refl. reflexivity. Qed.

Lemma owned_by_new (user_id i product_id : Z) :
  owned_by user_id {| CartItem_id := i; CartItem_user_id := user_id;
                      CartItem_product_id := product_id |} = true.
Proof. apply Z.eqb_refl. Qed.

(** What [view_cart] shows after one more row of the user was appended. *)
Lemma view_cart_after_insert (db : DB) (cookie : option Z) (U : Z) (u : User)
    (p : Product) (i : Z) (es : list cart_entry) :
  User_get U db = Some u ->
  Product_get (Product_id p) db = Some p ->
  cart_content_of (outcome_of (run_request (view_cart U) db cookie None)) = Some es ->
  cart_content_of (outcome_of (run_request (view_cart U)
      {| users := users db; products := products db;
         cart_items := cart_items db ++
           [{| CartItem_id := i; CartItem_user_id := User_id u;
               CartItem_product_id := Product_id p |}] |} cookie None)) =
    Some (es ++ [{| entry_id := i; entry_user_id := User_id u;
                    entry_product_id := Product_id p;
                    entry_product_name := Product_name p;
                    entry_product_price := Product_price p |}]).
Proof.
  intros Hu Hp. rewrite !view_cart_run. unfold outcome_of. simpl.
  unfold User_get in *. simpl. rewrite Hu.
  unfold User_cart. simpl. rewrite filter_app. simpl.
  rewrite owned_by_new, entries_of_app.
  rewrite !(entries_of_products db {| users := users db; products := products db;
                                      cart_items := _ |}) by reflexivity.
  destruct (entries_of db (filter _ (cart_items db))) as [es'|]; simpl; [|discriminate].
  intros H. injection H as <-.
  unfold entry_of, Product_get in *. simpl. rewrite Hp. reflexivity.
Qed.

(** C3, as the code has it: for a product id within 64 bits, when the
    user or the product does not resolve, [add_to_cart] answers 400 and the
    store is unchanged; when both resolve it answers 200 and appends exactly
    one CartItem for (U, P) under a fresh id, so a [view_cart] that returned
    [es] before returns [es] and one more entry referencing P after one
    call, and two more after two calls (one and two entries when the cart
    held none for P). *)
Theorem add_to_cart_spec :
  forall (db : DB) (cookie : option Z) (U P : Z),
    (in_range P = true -> User_get U db = None \/ Product_get P db = None ->
       outcome_of (run_request (add_to_cart P U) db cookie None) =
         Returned (jsonify (Message "Falha ao adiciona ao Carrinho") 400) /\
       store_of (run_request (add_to_cart P U) db cookie None) = db) /\
    (forall u p, User_get U db = Some u -> Product_get P db = Some p ->
       let db1 := store_of (run_request (add_to_cart P U) db cookie None) in
       let db2 := store_of (run_request (add_to_cart P U) db1 cookie None) in
       outcome_of (run_request (add_to_cart P U) db cookie None) =
         Returned (jsonify (Message "O Item foi adicionado com Sucesso") 200) /\
       outcome_of (run_request (add_to_cart P U) db1 cookie None) =
         Returned (jsonify (Message "O Item foi adicionado com Sucesso") 200) /\
       users db1 = users db /\ products db1 = products db /\
       (exists c, cart_items db1 = cart_items db ++ [c] /\
                  CartItem_user_id c = U /\ CartItem_product_id c = P /\
                  ~ In (CartItem_id c) (map CartItem_id (cart_items db))) /\
       forall es,
         cart_content_of (outcome_of (run_request (view_cart U) db cookie None)) = Some es ->
         exists e1 e2,
           entry_product_id e1 = P /\ entry_product_id e2 = P /\
           cart_content_of (outcome_of (run_request (view_cart U) db1 cookie None)) =
             Some (es ++ [e1]) /\
           cart_content_of (outcome_of (run_request (view_cart U) db2 cookie None)) =
             Some (es ++ [e1; e2]) /\
           List.length (referencing P (es ++ [e1])) = S (List.length (referencing P es)) /\
           List.length (referencing P (es ++ [e1; e2])) =
             S (S (List.length (referencing P es)))).
Proof.
  intros db cookie U P. split.
  - rewrite add_to_cart_run. intros -> [-> | ->]; [|destruct (User_get U db)];
      split; reflexivity.
  - intros u p Hu Hp db1 db2.
    destruct (User_get_id _ _ _ Hu) as [Hui _].
    destruct (Product_get_id _ _ _ Hp) as [Hpi _].
    assert (E1 : run_request (add_to_cart P U) db cookie None =
                 (Returned (jsonify (Message "O Item foi adicionado com Sucesso") 200),
                  {| users := users db; products := products db;
                     cart_items := cart_items db ++
                       [{| CartItem_id := next_id (map CartItem_id (cart_items db));
                           CartItem_user_id := User_id u;
                           CartItem_product_id := Product_id p |}] |}, cookie)).
    { rewrite add_to_cart_run, Hu, Hp. reflexivity. }
    assert (Hu1 : User_get U db1 = Some u).
    { subst db1. rewrite E1. exact Hu. }
    assert (Hp1 : Product_get P db1 = Some p).
    { subst db1. rewrite E1. exact Hp. }
    assert (E2 : run_request (add_to_cart P U) db1 cookie None =
                 (Returned (jsonify (Message "O Item foi adicionado com Sucesso") 200),
                  {| users := users db1; products := products db1;
                     cart_items := cart_items db1 ++
                       [{| CartItem_id := next_id (map CartItem_id (cart_items db1));
                           CartItem_user_id := User_id u;
                           CartItem_product_id := Product_id p |}] |}, cookie)).
    { rewrite add_to_cart_run, Hu1, Hp1. reflexivity. }
    split; [rewrite E1; reflexivity|].
    split; [rewrite E2; reflexivity|].
    split; [subst db1; rewrite E1; reflexivity|].
    split; [subst db1; rewrite E1; reflexivity|].
    split.
    { eexists. subst db1. rewrite E1. unfold store_of. simpl.
      split; [reflexivity|]. simpl. repeat split; try assumption.
      apply next_id_fresh. }
    intros es Hes.
    rewrite <- Hpi in Hp, Hp1.
    pose proof (view_cart_after_insert db cookie U u p
                  (next_id (map CartItem_id (cart_items db))) es Hu Hp Hes) as V1.
    assert (D1 : db1 = {| users := users db; products := products db;
                          cart_items := cart_items db ++
                            [{| CartItem_id := next_id (map CartItem_id (cart_items db));
                                CartItem_user_id := User_id u;
                                CartItem_product_id := Product_id p |}] |}).
    { subst db1. rewrite E1. reflexivity. }
    rewrite <- D1 in V1.
    pose proof (view_cart_after_insert db1 cookie U u p
                  (next_id (map CartItem_id (cart_items db1))) _ Hu1 Hp1 V1) as V2.
    set (e1 := {| entry_id := next_id (map CartItem_id (cart_items db));
                  entry_user_id := User_id u; entry_product_id := Product_id p;
                  entry_product_name := Product_name p;
                  entry_product_price := Product_price p |}) in *.
    set (e2 := {| entry_id := next_id (map CartItem_id (cart_items db1));
                  entry_user_id := User_id u; entry_product_id := Product_id p;
                  entry_product_name := Product_name p;
                  entry_product_price := Product_price p |}) in *.
    exists e1, e2.
    split; [exact Hpi|]. split; [exact Hpi|]. split; [exact V1|].
    split; [|split].
    + subst db2. rewrite E2. unfold store_of. simpl.
      rewrite V2, <- app_assoc. reflexivity.
    + rewrite referencing_app, referencing_one by exact Hpi.
      rewrite length_app. simpl. lia.
    + change [e1; e2] with ([e1] ++ [e2]).
      rewrite !referencing_app, !referencing_one by exact Hpi.
        rewrite !length_app. simpl. lia.
Qed.

Lemma add_to_cart_spec_witness :
  outcome_of (run_request (add_to_cart 2 2) sample_db None None) =
    Returned (jsonify (Message "O Item foi adicionado com Sucesso") 200) /\
  (exists e1 e2,
     entry_product_id e1 = 2 /\ entry_product_id e2 = 2 /\
     cart_content_of (outcome_of (run_request (view_cart 2)
        (store_of (run_request (add_to_cart 2 2) sample_db None None)) None None)) =
       Some ([{| entry_id := 2; entry_user_id := 2; entry_product_id := 1;
                 entry_product_name := "Pen"; entry_product_price := Finite (3 # 2) |}] ++ [e1]) /\
     List.length (referencing 2
        ([{| entry_id := 2; entry_user_id := 2; entry_product_id := 1;
             entry_product_name := "Pen"; entry_product_price := Finite (3 # 2) |}] ++ [e1; e2])) =
       2%nat) /\
  store_of (run_request (add_to_cart 2 9) sample_db None None) = sample_db.
Proof.
  destruct (add_to_cart_spec sample_db None 2 2) as [_ Hok].
  destruct (add_to_cart_spec sample_db None 9 2) as [Hko _].
  destruct (Hok {| User_id := 2; User_username := "bob"; User_password := None |}
                {| Product_id := 2; Product_name := "Ink"; Product_price := Finite (4 # 1);
                   Product_description := None |} eq_refl eq_refl)
    as (H200 & _ & _ & _ & _ & Hview).
  destruct (Hview _ eq_refl) as (e1 & e2 & H1 & H2 & V1 & _ & _ & L2).
  destruct (Hko eq_refl (or_introl eq_refl)) as [_ Hsame].
  split; [exact H200|]. split; [|exact Hsame].
  exists e1, e2. repeat split; assumption.
Defined.

(** Where the claim fails.  A product id beyond 64 bits does not resolve,
    and the lookup raises instead of answering 400.  Alice holds the Pen
    twice: after one more [add_to_cart] her cart shows three entries that
    reference it, not one.  And once the Ink of her cart is deleted, an
    [add_to_cart] of the Pen answers 200 and the [view_cart] after it
    raises. *)
Lemma add_to_cart_not_exactly_one_counterexample :
  Product_get 9223372036854775808 sample_db = None /\
  outcome_of (run_request (add_to_cart 9223372036854775808 1) sample_db None None) =
    Raised OverflowError /\
  option_map (fun es => List.length (referencing 1 es))
    (cart_content_of (outcome_of (run_request (view_cart 1)
       (store_of (run_request (add_to_cart 1 1) sample_db None None)) None None))) =
    Some 3%nat /\
  outcome_of (run_request (add_to_cart 1 1)
    (store_of (run_request (delete_product 2) sample_db None None)) None None) =
    Returned (jsonify (Message "O Item foi adicionado com Sucesso") 200) /\
  outcome_of (run_request (view_cart 1)
    (store_of (run_request (add_to_cart 1 1)
       (store_of (run_request (delete_product 2) sample_db None None)) None None))
    None None) = Raised AttributeError.
Proof. repeat split. Qed.

Lemma delete_by_id_split (l1 l2 : list CartItem) (c : CartItem) :
  NoDup (map CartItem_id (l1 ++ c :: l2)) ->
  filter (fun d => negb (CartItem_id d =? CartItem_id c)) (l1 ++ c :: l2) = l1 ++ l2.
Proof.
  intros Hnd. rewrite map_app in Hnd. simpl in Hnd.
  apply NoDup_remove_2 in Hnd.
  rewrite filter_app. simpl. rewrite Z.eqb_refl. simpl.
  rewrite !filter_everything; [reflexivity| |];
    intros d Hd; apply negb_true_iff, Z.eqb_neq; intros Heq; apply Hnd;
    rewrite <- Heq; apply in_or_app; [right|left]; apply in_map, Hd.
Qed.

(** C4, as the code has it: with CartItem ids unique and a product id
    within 64 bits, [remove_from_cart] answers 200 and deletes exactly one
    row, the first that matches both U and P, when a matching row exists,
    whatever the number of duplicates; when none exists it answers 400,
    raises nothing and leaves the store unchanged. *)
Theorem remove_from_cart_spec :
  forall (db : DB) (cookie : option Z) (U P : Z),
    NoDup (map CartItem_id (cart_items db)) ->
    in_range P = true ->
    ((exists c, In c (cart_items db) /\ matches U P c = true) ->
       outcome_of (run_request (remove_from_cart P U) db cookie None) =
         Returned (jsonify (Message "O Item foi Removido com Sucesso") 200) /\
       users (store_of (run_request (remove_from_cart P U) db cookie None)) = users db /\
       products (store_of (run_request (remove_from_cart P U) db cookie None)) =
         products db /\
       (exists l1 c l2,
          cart_items db = l1 ++ c :: l2 /\
          matches U P c = true /\
          (forall d, In d l1 -> matches U P d = false) /\
          cart_items (store_of (run_request (remove_from_cart P U) db cookie None)) =
            l1 ++ l2) /\
       S (List.length (filter (matches U P)
            (cart_items (store_of (run_request (remove_from_cart P U) db cookie None))))) =
         List.length (filter (matches U P) (cart_items db))) /\
    ((forall c, In c (cart_items db) -> matches U P c = false) ->
       outcome_of (run_request (remove_from_cart P U) db cookie None) =
         Returned (jsonify (Message "Falha ao Remover ao Carrinho") 400) /\
       store_of (run_request (remove_from_cart P U) db cookie None) = db).
Proof.
  intros db cookie U P Hnd Hrange. rewrite remove_from_cart_run, Hrange.
  unfold CartItem_first. split.
  - intros (c0 & Hin0 & Hm0).
    destruct (find (matches U P) (cart_items db)) as [c|] eqn:Hfind.
    2: { pose proof (find_none _ _ Hfind c0 Hin0) as Hf. congruence. }
    destruct (first_match_split _ _ _ Hfind) as (l1 & l2 & Hsplit & Hc & Hl1).
    unfold outcome_of, store_of. simpl.
    assert (Hdel : filter (fun d => negb (CartItem_id d =? CartItem_id c)) (cart_items db) =
                   l1 ++ l2).
    { rewrite Hsplit in Hnd |- *. apply delete_by_id_split, Hnd. }
    repeat split.
    + exists l1, c, l2. repeat split; assumption.
    + rewrite Hdel, Hsplit, !filter_app. simpl. rewrite Hc, !length_app. simpl. lia.
  - intros Hnone.
    destruct (find (matches U P) (cart_items db)) as [c|] eqn:Hfind.
    + apply find_some in Hfind as [Hin Hm]. rewrite (Hnone c Hin) in Hm. discriminate.
    + split; reflexivity.
Qed.

Lemma remove_from_cart_spec_witness :
  NoDup (map CartItem_id (cart_items sample_db)) /\
  S (List.length (filter (matches 1 1)
       (cart_items (store_of (run_request (remove_from_cart 1 1) sample_db None None))))) =
    List.length (filter (matches 1 1) (cart_items sample_db)) /\
  store_of (run_request (remove_from_cart 2 2) sample_db None None) = sample_db.
Proof.
  assert (Hnd : NoDup (map CartItem_id (cart_items sample_db))).
  { simpl. repeat constructor; simpl; intuition discriminate. }
  destruct (remove_from_cart_spec sample_db None 1 1 Hnd eq_refl) as [Hsome _].
  destruct (remove_from_cart_spec sample_db None 2 2 Hnd eq_refl) as [_ Hnone].
  split; [exact Hnd|]. split.
  - apply Hsome.
    exists {| CartItem_id := 1; CartItem_user_id := 1; CartItem_product_id := 1 |}.
    split; [left; reflexivity|reflexivity].
  - apply Hnone. intros c Hc. simpl in Hc.
    repeat (destruct Hc as [<-|Hc]; [reflexivity|]). contradiction.
Defined.

(** No row of the cart matches a product id beyond 64 bits, and the lookup
    raises instead of answering 400. *)
Lemma remove_from_cart_beyond_64_bits_counterexample :
  filter (matches 1 9223372036854775808) (cart_items sample_db) = [] /\
  outcome_of (run_request (remove_from_cart 9223372036854775808 1) sample_db None None) =
    Raised OverflowError /\
  outcome_of (run_request (remove_from_cart 9223372036854775808 1) sample_db None None) <>
    Returned (jsonify (Message "Falha ao Remover ao Carrinho") 400).
Proof. repeat split. discriminate. Qed.

(** A cart operation under any failure of the engine: either it does not
    answer 200 and the store is the one before, or it answers and stores
    what it does with the engine working. *)
Lemma cart_view_atomic (op : cart_op) (U : Z) (db : DB) (cookie : option Z)
    (failing : option nat) :
  (succeeded (outcome_of (run_request (cart_view op U) db cookie failing)) = false /\
   store_of (run_request (cart_view op U) db cookie failing) = db) \/
  (succeeded (outcome_of (run_request (cart_view op U) db cookie failing)) = true /\
   outcome_of (run_request (cart_view op U) db cookie failing) =
     outcome_of (run_request (cart_view op U) db cookie None) /\
   store_of (run_request (cart_view op U) db cookie failing) =
     store_of (run_request (cart_view op U) db cookie None)).
Proof.
  unfold run_request, outcome_of, store_of.
  pose proof (cart_view_all_or_nothing op U
                {| store := db; pending := []; logged_in := cookie; faults := failing |}) as Hfail.
  pose proof (cart_view_steady op U
                {| store := db; pending := []; logged_in := cookie; faults := failing |}) as Hok.
  destruct (cart_view op U _) as [r s] eqn:Hrun in Hfail, Hok |- *.
  simpl in *.
  destruct (succeeded r) eqn:Hr.
  - right. split; [reflexivity|].
    destruct r as [resp|e]; [|discriminate].
    specialize (Hok resp s eq_refl). unfold relax in Hok. simpl in Hok.
    rewrite Hok. split; reflexivity.
  - left. split; [reflexivity|]. apply Hfail. reflexivity.
Qed.

(** C1: each of the four cart operations is all-or-nothing.  Let the
    storage engine fail at any call of the session (a query, a registered
    insert or delete, the commit itself): whenever the operation does not
    answer 200, because it answered 400 or raised, the store afterwards is
    the store before; and when it answers 200 the outcome and the store are
    those of the run in which nothing fails. *)
Theorem cart_operations_all_or_nothing :
  forall (op : cart_op) (U : Z) (db : DB) (cookie : option Z) (failing : option nat),
    (succeeded (outcome_of (run_request (cart_view op U) db cookie failing)) = false ->
       store_of (run_request (cart_view op U) db cookie failing) = db) /\
    (succeeded (outcome_of (run_request (cart_view op U) db cookie failing)) = true ->
       outcome_of (run_request (cart_view op U) db cookie failing) =
         outcome_of (run_request (cart_view op U) db cookie None) /\
       store_of (run_request (cart_view op U) db cookie failing) =
         store_of (run_request (cart_view op U) db cookie None)).
Proof.
  intros op U db cookie failing.
  destruct (cart_view_atomic op U db cookie failing) as [[Hf Hs]|[Ht Heq]].
  - split; [intros _; exact Hs|]. rewrite Hf. discriminate.
  - split; [rewrite Ht; discriminate|]. intros _. exact Heq.
Qed.

(** The engine fails at the third delete of a checkout of three items, and
    at the commit of an insert: nothing was written. *)
Lemma cart_operations_all_or_nothing_witness :
  outcome_of (run_request (cart_view Checkout 1) sample_db None (Some 4%nat)) =
    Raised OperationalError /\
  store_of (run_request (cart_view Checkout 1) sample_db None (Some 4%nat)) = sample_db /\
  store_of (run_request (cart_view (AddToCart 2) 1) sample_db None (Some 3%nat)) = sample_db /\
  store_of (run_request (cart_view (RemoveFromCart 1) 1) sample_db None (Some 5%nat)) =
    store_of (run_request (cart_view (RemoveFromCart 1) 1) sample_db None None).
Proof.
  split; [reflexivity|]. split; [|split].
  - apply (cart_operations_all_or_nothing Checkout 1 sample_db None (Some 4%nat)).
    reflexivity.
  - apply (cart_operations_all_or_nothing (AddToCart 2) 1 sample_db None (Some 3%nat)).
    reflexivity.
  - apply (cart_operations_all_or_nothing (RemoveFromCart 1) 1 sample_db None (Some 5%nat)).
    reflexivity.
Defined.

Lemma matches_owner (U P : Z) (c : CartItem) :
  matches U P c = true -> CartItem_user_id c = U.
Proof. unfold matches. intros H. apply andb_true_iff in H as [H _]. lia. Qed.

Lemma owned_by_spec (U : Z) (c : CartItem) :
  owned_by U c = true <-> CartItem_user_id c = U.
Proof. unfold owned_by. apply Z.eqb_eq. Qed.

(** The rows of another user survive the deletion, by id, of rows of U. *)
Lemma others_survive (U V : Z) (gone : list CartItem) (items : list CartItem) :
  NoDup (map CartItem_id items) -> U <> V ->
  (forall c, In c gone -> In c items /\ CartItem_user_id c = U) ->
  filter (owned_by V)
    (filter (fun c => negb (in_ids (map CartItem_id gone) (CartItem_id c))) items) =
  filter (owned_by V) items.
Proof.
  intros Hnd Hne Hgone. rewrite filter_twice. apply filter_ext_in.
  intros d Hd. destruct (owned_by V d) eqn:Hown; [|apply andb_false_r].
  rewrite andb_true_r. apply negb_true_iff.
  destruct (in_ids _ _) eqn:Hmem; [|reflexivity].
  exfalso. apply in_ids_spec, in_map_iff in Hmem as (c & Hid & Hc).
  destruct (Hgone c Hc) as [Hin Hu].
  assert (c = d) by (apply (same_key_same_row CartItem_id items); assumption).
  subst d. apply owned_by_spec in Hown. congruence.
Qed.

(** C10: a cart operation of U, whether or not the engine fails under
    it, leaves the CartItems owned by any other user V, the Product table
    and the User table as they were (CartItem ids being unique). *)
Theorem cart_operations_frame :
  forall (op : cart_op) (U V : Z) (db : DB) (cookie : option Z) (failing : option nat),
    NoDup (map CartItem_id (cart_items db)) ->
    U <> V ->
    filter (owned_by V)
      (cart_items (store_of (run_request (cart_view op U) db cookie failing))) =
      filter (owned_by V) (cart_items db) /\
    products (store_of (run_request (cart_view op U) db cookie failing)) = products db /\
    users (store_of (run_request (cart_view op U) db cookie failing)) = users db.
Proof.
  intros op U V db cookie failing Hnd Hne.
  destruct (cart_view_atomic op U db cookie failing) as [[_ ->]|(_ & _ & ->)];
    [repeat split|].
  destruct op as [P|P| |]; simpl.
  - rewrite add_to_cart_run.
    destruct (User_get U db) as [u|] eqn:Hu; [|destruct (in_range P); repeat split].
    destruct (Product_get P db) as [p|]; [|destruct (in_range P); repeat split].
    unfold store_of. simpl. repeat split.
    rewrite filter_app. simpl.
    destruct (User_get_id _ _ _ Hu) as [Hid _].
    replace (owned_by V _) with false; [apply app_nil_r|].
    symmetry. unfold owned_by. simpl. apply Z.eqb_neq. congruence.
  - rewrite remove_from_cart_run. destruct (in_range P); [|repeat split].
    destruct (CartItem_first U P db) as [c|] eqn:Hc; [|repeat split].
    unfold store_of. simpl. repeat split.
    unfold CartItem_first in Hc. apply find_some in Hc as [Hin Hm].
    apply matches_owner in Hm.
    pose proof (others_survive U V [c] (cart_items db) Hnd Hne) as H.
    simpl in H. rewrite <- H.
    + f_equal. apply filter_ext. intros d. unfold in_ids. simpl.
      rewrite orb_false_r. reflexivity.
    + intros d [<-|[]]. split; assumption.
  - rewrite view_cart_run. repeat split.
  - rewrite checkout_run.
    destruct (User_get U db) as [u|] eqn:Hu; [|repeat split].
    unfold store_of. simpl. repeat split.
    destruct (User_get_id _ _ _ Hu) as [Hid _].
    apply (others_survive U); [assumption..|].
    intros c Hc. unfold User_cart in Hc. apply filter_In in Hc as [Hin Hown].
    apply owned_by_spec in Hown. split; congruence.
Qed.

Lemma cart_operations_frame_witness :
  NoDup (map CartItem_id (cart_items sample_db)) /\ 1 <> 2 /\
  filter (owned_by 2)
    (cart_items (store_of (run_request (cart_view Checkout 1) sample_db None None))) =
    [ {| CartItem_id := 2; CartItem_user_id := 2; CartItem_product_id := 1 |} ] /\
  products (store_of (run_request (cart_view (RemoveFromCart 1) 1) sample_db None None)) =
    products sample_db.
Proof.
  assert (Hnd : NoDup (map CartItem_id (cart_items sample_db))).
  { simpl. repeat constructor; simpl; intuition discriminate. }
  assert (Hne : 1 <> 2) by discriminate.
  split; [exact Hnd|]. split; [exact Hne|]. split.
  - apply (cart_operations_frame Checkout 1 2 sample_db None None Hnd Hne).
  - apply (cart_operations_frame (RemoveFromCart 1) 1 2 sample_db None None Hnd Hne).
Defined.

Lemma entries_of_none (db : DB) (l : list CartItem) :
  entries_of db l = None <->
  exists c, In c l /\ Product_get (CartItem_product_id c) db = None.
Proof.
  induction l as [|c l IH]; simpl.
  - split; [discriminate|intros (c & [] & _)].
  - unfold entry_of at 1.
    destruct (Product_get (CartItem_product_id c) db) as [p|] eqn:Hp.
    + destruct (entries_of db l) as [es|].
      * split; [discriminate|]. intros (d & [<-|Hd] & Hnone); [congruence|].
        exfalso. destruct IH as [_ IH].
        assert (Some es = None) by (apply IH; exists d; split; assumption).
        discriminate.
      * split; [|reflexivity]. intros _.
        destruct IH as [IH _]. destruct (IH eq_refl) as (d & Hd & Hnone).
        exists d. split; [right; exact Hd|exact Hnone].
    + split; [|reflexivity]. intros _. exists c. split; [left; reflexivity|exact Hp].
Qed.

(** C9: [view_cart] of a user that resolves returns a sequence exactly
    when every CartItem of the user references a product that resolves;
    with one that does not, the read of the missing product's name raises
    [AttributeError].  Such a state is reached by [delete_product], which
    leaves the CartItems that reference the product. *)
Theorem view_cart_raises_on_missing_product :
  forall (db : DB) (cookie : option Z) (U : Z) (u : User),
    User_get U db = Some u ->
    ((exists c, In c (cart_items db) /\ CartItem_user_id c = U /\
                Product_get (CartItem_product_id c) db = None) ->
       outcome_of (run_request (view_cart U) db cookie None) = Raised AttributeError) /\
    ((forall c, In c (cart_items db) -> CartItem_user_id c = U ->
                Product_get (CartItem_product_id c) db <> None) ->
       exists es, outcome_of (run_request (view_cart U) db cookie None) =
                  Returned (jsonify (CartContent es) 200)) /\
    (forall c, In c (cart_items db) -> CartItem_user_id c = U ->
       Product_get (CartItem_product_id c) db <> None ->
       outcome_of (run_request (view_cart U)
         (store_of (run_request (delete_product (CartItem_product_id c)) db cookie None))
         cookie None) = Raised AttributeError).
Proof.
  intros db cookie U u Hu.
  destruct (User_get_id _ _ _ Hu) as [Hid _].
  assert (Hraise : forall db', users db' = users db ->
            (exists c, In c (cart_items db') /\ CartItem_user_id c = U /\
                       Product_get (CartItem_product_id c) db' = None) ->
            outcome_of (run_request (view_cart U) db' cookie None) = Raised AttributeError).
  { intros db' Husers (c & Hin & Hc & Hnone).
    rewrite view_cart_run. unfold outcome_of. simpl.
    unfold User_get in *. rewrite Husers, Hu.
    replace (entries_of db' (User_cart u db')) with (@None (list cart_entry)); [reflexivity|].
    symmetry. apply entries_of_none. exists c. split; [|exact Hnone].
    unfold User_cart. apply filter_In. split; [exact Hin|].
    apply owned_by_spec. congruence. }
  split; [apply Hraise; reflexivity|]. split.
  - intros Hall. rewrite view_cart_run, Hu. unfold outcome_of. simpl.
    destruct (entries_of db (User_cart u db)) as [es|] eqn:Hes; [exists es; reflexivity|].
    exfalso. apply entries_of_none in Hes as (c & Hin & Hnone).
    unfold User_cart in Hin. apply filter_In in Hin as [Hin Hown].
    apply owned_by_spec in Hown. apply (Hall c Hin); congruence.
  - intros c Hin Hc Hp.
    destruct (Product_get (CartItem_product_id c) db) as [p|] eqn:Hget; [|congruence].
    destruct (Product_get_id _ _ _ Hget) as [Hpid _].
    rewrite delete_product_run, Hget. unfold store_of. simpl.
    apply Hraise; [reflexivity|].
    exists c. simpl. repeat split; try assumption.
    apply Product_get_none. simpl. intros Hmem.
    apply in_map_iff in Hmem as (q & Hq & Hmem). apply filter_In in Hmem as [_ Hne].
    rewrite Hpid, Hq, Z.eqb_refl in Hne. discriminate.
Qed.

Lemma view_cart_raises_on_missing_product_witness :
  User_get 1 sample_db =
    Some {| User_id := 1; User_username := "alice"; User_password := Some "secret" |} /\
  outcome_of (run_request (view_cart 1)
    (store_of (run_request (delete_product 2) sample_db None None)) None None) =
    Raised AttributeError /\
  (exists es, outcome_of (run_request (view_cart 1) sample_db None None) =
              Returned (jsonify (CartContent es) 200)).
Proof.
  destruct (view_cart_raises_on_missing_product sample_db None 1
              {| User_id := 1; User_username := "alice"; User_password := Some "secret" |}
              eq_refl) as (_ & Hall & Hdel).
  split; [reflexivity|]. split.
  - apply (Hdel {| CartItem_id := 4; CartItem_user_id := 1; CartItem_product_id := 2 |}).
    + simpl. intuition.
    + reflexivity.
    + discriminate.
  - apply Hall. intros c Hc _. simpl in Hc.
    repeat (destruct Hc as [<-|Hc]; [discriminate|]). contradiction.
Defined.

(** ** Login *)

Lemma option_string_eqb_eq (a b : option string) :
  option_string_eqb a b = true <-> a = b.
Proof.
  destruct a as [x|], b as [y|]; simpl; try (split; [discriminate|discriminate]);
    try (split; reflexivity).
  rewrite String.eqb_eq. split; [intros ->; reflexivity|intros H; injection H; trivial].
Qed.

Lemma find_by_username (l : list User) (u : User) :
  NoDup (map User_username l) -> In u l ->
  find (fun x => String.eqb (User_username x) (User_username u)) l = Some u.
Proof.
  intros Hnd Hin. destruct (find _ l) as [v|] eqn:Hfind.
  - apply find_some in Hfind as [Hv Heq]. apply String.eqb_eq in Heq.
    f_equal. apply (same_key_same_row User_username l); assumption.
  - pose proof (find_none _ _ Hfind u Hin) as H. simpl in H.
    rewrite String.eqb_refl in H. discriminate.
Qed.



(** ** Catalog *)





Lemma update_row_total (name : field string) (price : field float64)
    (description : field string) (p : Product) :
  name <> Null -> price <> Null ->
  update_row name price description p = Some (updated_row name price description p).
Proof.
  intros Hn Hp. unfold update_row, updated_row.
  destruct name, price; try contradiction; reflexivity.
Qed.

Lemma update_where_map (id : Z) (upd : Product -> option Product)
    (g : Product -> Product) (l : list Product) :
  (forall x, upd x = Some (g x)) ->
  update_where id upd l = Some (map (fun x => if Product_id x =? id then g x else x) l).
Proof.
  intros H. induction l as [|x l IH]; simpl; [reflexivity|].
  rewrite IH, H. destruct (Product_id x =? id); reflexivity.
Qed.

Lemma find_map_same_id (h : Product -> Product) (l : list Product) (i : Z) :
  (forall x, Product_id (h x) = Product_id x) ->
  find (fun x => Product_id x =? i) (map h l) =
  option_map h (find (fun x => Product_id x =? i) l).
Proof.
  intros H. induction l as [|x l IH]; simpl; [reflexivity|].
  rewrite H. destruct (Product_id x =? i); [reflexivity|exact IH].
Qed.

Lemma Product_get_updated (db : DB) (P i : Z) (g : Product -> Product)
    (us : list User) (cs : list CartItem) :
  (forall x, Product_id (g x) = Product_id x) ->
  Product_get i {| users := us;
                   products := map (fun x => if Product_id x =? P then g x else x)
                                   (products db);
                   cart_items := cs |} =
  if i =? P then option_map g (Product_get i db) else Product_get i db.
Proof.
  intros Hg. unfold Product_get. simpl.
  destruct (in_range i); [|destruct (i =? P); reflexivity].
  rewrite find_map_same_id by (intros x; destruct (Product_id x =? P); [apply Hg|reflexivity]).
  destruct (find _ (products db)) as [x|] eqn:Hx; simpl; [|destruct (i =? P); reflexivity].
  apply find_some in Hx as [_ Hid]. apply Z.eqb_eq in Hid. rewrite Hid.
  destruct (i =? P); reflexivity.
Qed.

Lemma entries_of_shows (db : DB) (l : list CartItem) (es : list cart_entry) :
  entries_of db l = Some es -> Forall2 (shows db) l es.
Proof.
  revert es. induction l as [|c l IH]; simpl; intros es H.
  - injection H as <-. constructor.
  - unfold entry_of in H at 1.
    destruct (Product_get (CartItem_product_id c) db) as [p|] eqn:Hp; [|discriminate].
    destruct (entries_of db l) as [es'|]; [|discriminate].
    injection H as <-. constructor; [|apply IH; reflexivity].
    unfold shows. simpl. repeat split. exists p. rewrite Hp. repeat split.
Qed.

(** The cart after an UPDATE of product [P] that sets its price. *)
Lemma entries_of_updated (db : DB) (P : Z) (p : Product) (name : field string)
    (pr : float64) (description : field string) (l : list CartItem) :
  Product_get P db = Some p ->
  entries_of
    {| users := users db;
       products := map (fun x => if Product_id x =? P
                                 then updated_row name (Value pr) description x else x)
                       (products db);
       cart_items := cart_items db |} l =
  option_map
    (map (refreshed P (match name with Value n => n | _ => Product_name p end) pr))
    (entries_of db l).
Proof.
  intros Hp.
  induction l as [|c l IH]; simpl; [reflexivity|].
  rewrite IH. unfold entry_of.
  rewrite Product_get_updated by reflexivity.
  destruct (Product_get (CartItem_product_id c) db) as [x|] eqn:Hx; simpl.
  2: { destruct (CartItem_product_id c =? P); reflexivity. }
  destruct (entries_of db l) as [es|]; simpl.
  2: { destruct (CartItem_product_id c =? P); reflexivity. }
  unfold refreshed at 2. simpl.
  destruct (CartItem_product_id c =? P) eqn:Hc; [|reflexivity].
  apply Z.eqb_eq in Hc. rewrite Hc in Hx. rewrite Hp in Hx. injection Hx as <-.
  reflexivity.
Qed.

(** C5, as the code has it: for a user all of whose CartItems reference
    products that resolve, [view_cart] returns one entry per CartItem owned
    by U, in storage order, each with the name and price the catalog holds
    for its product when the cart is read; after [update_product] has set
    the price of a product (answering 200), the entries of the cart that
    reference it carry the new price, as the Float column holds it, and the
    others are as before. *)
Theorem view_cart_reads_catalog_live :
  forall (db : DB) (cookie : option Z) (U : Z) (u : User),
    User_get U db = Some u ->
    (forall c, In c (cart_items db) -> CartItem_user_id c = U ->
               Product_get (CartItem_product_id c) db <> None) ->
    exists es,
      outcome_of (run_request (view_cart U) db cookie None) =
        Returned (jsonify (CartContent es) 200) /\
      Forall2 (shows db) (filter (owned_by U) (cart_items db)) es /\
      List.length es = List.length (filter (owned_by U) (cart_items db)) /\
      (forall (P : Z) (p : Product) (x : number) (pr : float64) (data : product_json),
         Product_get P db = Some p ->
         json_price data = Value x ->
         to_float x = Some pr ->
         json_name data <> Null ->
         outcome_of (run_request (update_product P data) db cookie None) =
           Returned (jsonify (Message "Produto atualizado com sucesso") 200) /\
         outcome_of (run_request (view_cart U)
             (store_of (run_request (update_product P data) db cookie None)) cookie None) =
           Returned (jsonify (CartContent
             (map (refreshed P (match json_name data with
                                | Value n => n
                                | _ => Product_name p
                                end) pr) es)) 200) /\
         (forall e, In e (map (refreshed P (match json_name data with
                                            | Value n => n
                                            | _ => Product_name p
                                            end) pr) es) ->
                    entry_product_id e = P -> entry_product_price e = pr)).
Proof.
  intros db cookie U u Hu Hall.
  destruct (User_get_id _ _ _ Hu) as [Hid _].
  assert (Hview : forall db', users db' = users db -> cart_items db' = cart_items db ->
            run_request (view_cart U) db' cookie None =
            (match entries_of db' (filter (owned_by U) (cart_items db)) with
             | Some es => Returned (jsonify (CartContent es) 200)
             | None => Raised AttributeError
             end, db', cookie)).
  { intros db' Husers Hitems. rewrite view_cart_run. unfold User_get in *.
    rewrite Husers, Hu. unfold User_cart. rewrite Hid, Hitems. reflexivity. }
  destruct (entries_of db (filter (owned_by U) (cart_items db))) as [es|] eqn:Hent.
  2: { exfalso. apply entries_of_none in Hent as (c & Hin & Hnone).
       apply filter_In in Hin as [Hin Hown]. apply owned_by_spec in Hown.
       exact (Hall c Hin Hown Hnone). }
  exists es.
  pose proof (entries_of_shows _ _ _ Hent) as Hshows.
  split; [rewrite (Hview db eq_refl eq_refl), Hent; reflexivity|].
  split; [exact Hshows|]. split; [symmetry; eapply Forall2_length; exact Hshows|].
  intros P p x pr data Hp Hprice Hfloat Hname.
  destruct (Product_get_id _ _ _ Hp) as [Hpid _].
  rewrite update_product_run, Hp, Hprice, Hpid. unfold bind_price. rewrite Hfloat.
  rewrite (update_where_map P _ (updated_row (json_name data) (Value pr)
                                             (json_description data)))
    by (intros y; apply update_row_total; [exact Hname|discriminate]).
  unfold outcome_of, store_of. simpl. split; [reflexivity|]. split.
  - rewrite Hview by reflexivity. simpl.
    rewrite (entries_of_updated db P p) by exact Hp.
    rewrite Hent. reflexivity.
  - intros e He Heq. apply in_map_iff in He as (e0 & <- & _).
    unfold refreshed in *. destruct (entry_product_id e0 =? P) eqn:Hc; [reflexivity|].
    apply Z.eqb_neq in Hc. contradiction.
Qed.

(** The Pen of alice's cart goes from 1.5 to 2. *)
Lemma view_cart_reads_catalog_live_witness :
  outcome_of (run_request (view_cart 1)
      (store_of (run_request
         (update_product 1 {| json_name := Absent; json_price := Value (Integer 2);
                              json_description := Absent |}) sample_db None None))
      None None) =
    Returned (jsonify (CartContent
      [ {| entry_id := 1; entry_user_id := 1; entry_product_id := 1;
           entry_product_name := "Pen"; entry_product_price := Finite (2 # 1) |};
        {| entry_id := 3; entry_user_id := 1; entry_product_id := 1;
           entry_product_name := "Pen"; entry_product_price := Finite (2 # 1) |};
        {| entry_id := 4; entry_user_id := 1; entry_product_id := 2;
           entry_product_name := "Ink"; entry_product_price := Finite (4 # 1) |} ]) 200).
Proof.
  destruct (view_cart_reads_catalog_live sample_db None 1
              {| User_id := 1; User_username := "alice"; User_password := Some "secret" |}
              eq_refl) as (es & Hes & _ & _ & Hupd).
  { intros c Hc _. simpl in Hc.
    repeat (destruct Hc as [<-|Hc]; [discriminate|]). contradiction. }
  injection Hes as <-.
  destruct (Hupd 1 {| Product_id := 1; Product_name := "Pen"; Product_price := Finite (3 # 2);
                      Product_description := Some "" |} (Integer 2) (Finite (2 # 1))
              {| json_name := Absent; json_price := Value (Integer 2);
                 json_description := Absent |} eq_refl eq_refl eq_refl)
    as (_ & Hview & _); [discriminate|].
  exact Hview.
Defined.

(** Where the claim fails.  Alice's cart holds the Ink; once the Ink is
    deleted her [view_cart] raises instead of returning an entry per item.
    And a price that is no 64-bit float is shown as the float nearest to
    it. *)
Lemma view_cart_not_for_every_cart_counterexample :
  List.length (filter (owned_by 1)
    (cart_items (store_of (run_request (delete_product 2) sample_db None None)))) = 3%nat /\
  outcome_of (run_request (view_cart 1)
    (store_of (run_request (delete_product 2) sample_db None None)) None None) =
    Raised AttributeError /\
  outcome_of (run_request (view_cart 2)
      (store_of (run_request
         (update_product 1 {| json_name := Absent;
                              json_price := Value (Integer 9007199254740993);
                              json_description := Absent |}) sample_db None None))
      None None) =
    Returned (jsonify (CartContent
      [ {| entry_id := 2; entry_user_id := 2; entry_product_id := 1;
           entry_product_name := "Pen";
           entry_product_price := Finite (9007199254740992 # 1) |} ]) 200).
Proof. repeat split. Qed.

(** ** The keys stay unique *)

Lemma NoDup_snoc (l : list Z) (a : Z) : NoDup l -> ~ In a l -> NoDup (l ++ [a]).
Proof.
  induction l as [|b l IH]; simpl; intros Hnd Ha.
  - constructor; [intros []|constructor].
  - inversion Hnd as [|? ? Hb Hl]; subst. constructor.
    + intros Hin. apply in_app_or in Hin as [Hin|[Heq|[]]]; [exact (Hb Hin)|].
      apply Ha. left. symmetry. exact Heq.
    + apply IH; [exact Hl|]. intros Hin. apply Ha. right. exact Hin.
Qed.

Lemma update_where_ids (id : Z) (name : field string) (price : field float64)
    (description : field string) (l l' : list Product) :
  update_where id (update_row name price description) l = Some l' ->
  map Product_id l' = map Product_id l.
Proof.
  revert l'. induction l as [|x l IH]; simpl; intros l' H.
  - injection H as <-. reflexivity.
  - destruct (Product_id x =? id).
    + destruct (update_row name price description x) as [x'|] eqn:Hx; [|discriminate].
      destruct (update_where _ _ l) as [r|]; [|discriminate].
      injection H as <-. simpl. rewrite (IH r eq_refl). f_equal.
      unfold update_row in Hx.
      destruct (assign (Product_name x) name), (assign (Product_price x) price);
        try discriminate.
      injection Hx as <-. reflexivity.
    + destruct (update_where _ _ l) as [r|]; [|discriminate].
      injection H as <-. simpl. rewrite (IH r eq_refl). reflexivity.
Qed.

Lemma apply_write_wf (w : write) (db db' : DB) :
  wf_db db -> apply_write w db = Done db' -> wf_db db'.
Proof.
  intros [Hu Hn Hp Hc] H. destruct w as [o|id name price description|id|u p|id]; simpl in H.
  - destruct (bind_price _) as [[| |pr]|]; destruct (obj_name o); try discriminate.
    injection H as <-.
    constructor; simpl; try assumption.
    rewrite map_app. simpl. apply NoDup_snoc; [exact Hp|apply next_id_fresh].
  - destruct (bind_price price) as [price'|]; [|discriminate].
    destruct (update_where _ _ _) as [ps|] eqn:Hps; [|discriminate]. injection H as <-.
    constructor; simpl; try assumption.
    rewrite (update_where_ids _ _ _ _ _ _ Hps). exact Hp.
  - injection H as <-. constructor; simpl; try assumption.
    apply unique_after_delete, Hp.
  - injection H as <-. constructor; simpl; try assumption.
    rewrite map_app. simpl. apply NoDup_snoc; [exact Hc|apply next_id_fresh].
  - injection H as <-. constructor; simpl; try assumption.
    apply unique_after_delete, Hc.
Qed.

Lemma flush_wf (ws : list write) (db db' : DB) :
  wf_db db -> flush ws db = Done db' -> wf_db db'.
Proof.
  revert db. induction ws as [|w ws IH]; simpl; intros db Hwf H.
  - injection H as <-. exact Hwf.
  - destruct (apply_write w db) as [db1|] eqn:Hw; [|discriminate].
    apply (IH db1); [eapply apply_write_wf; eassumption|exact H].
Qed.

Lemma keeps_wf {A} (m : M A) : keeps_store m -> keeps_invariant m.
Proof. intros H s Hwf. rewrite H. exact Hwf. Qed.

Lemma bind_wf {X Y} (m : M X) (next : X -> M Y) :
  keeps_invariant m -> (forall x, keeps_invariant (next x)) ->
  keeps_invariant (bind m next).
Proof.
  intros Hm Hnext s Hwf. unfold bind. specialize (Hm s Hwf).
  destruct (m s) as [[x|e] s']; simpl in *; [|exact Hm].
  apply Hnext, Hm.
Qed.

Lemma commit_wf : keeps_invariant session_commit.
Proof.
  intros s Hwf. unfold session_commit, bind, tick.
  destruct (faults s) as [[|n]|]; simpl; try exact Hwf;
    destruct (flush (pending s) (store s)) as [db'|] eqn:Hf; simpl; try exact Hwf;
    eapply flush_wf; eassumption.
Qed.

Lemma commit_tail_wf {A} (m : M A) (r : response) :
  keeps_store m -> keeps_invariant (m ;; session_commit ;; ret r).
Proof.
  intros Hm. apply bind_wf; [apply keeps_wf, Hm|]. intros _.
  apply bind_wf; [apply commit_wf|]. intros _. apply keeps_wf, keeps_ret.
Qed.

(** Every view keeps the primary keys and the usernames unique, whether
    or not the engine fails under it. *)
Lemma views_keep_wf :
  (forall data, keeps_invariant (login data)) /\
  (forall data, keeps_invariant (add_product data)) /\
  (forall id, keeps_invariant (delete_product id)) /\
  (forall id data, keeps_invariant (update_product id data)) /\
  (forall op U, keeps_invariant (cart_view op U)).
Proof.
  repeat apply conj.
  - intros data. apply keeps_wf. unfold login.
    apply keeps_bind; [auto with session|]. intros [u|]; [|auto with session].
    destruct (option_string_eqb _ _); [|auto with session].
    apply keeps_bind; [|auto with session]. intros s. reflexivity.
  - intros data. unfold add_product.
    destruct (has_key _ && has_key _); [|apply keeps_wf; auto with session].
    apply commit_tail_wf. auto with session.
  - intros id. unfold delete_product.
    apply bind_wf; [apply keeps_wf; auto with session|].
    intros [p|]; [|apply keeps_wf; auto with session].
    apply commit_tail_wf. auto with session.
  - intros id data. unfold update_product.
    apply bind_wf; [apply keeps_wf; auto with session|].
    intros [p|]; [|apply keeps_wf; auto with session].
    apply commit_tail_wf. auto with session.
  - intros op U. destruct op as [P|P| |]; simpl.
    + unfold add_to_cart.
      apply bind_wf; [apply keeps_wf; auto with session|]. intros [u|];
        (apply bind_wf; [apply keeps_wf; auto with session|]); intros [p|];
        try (apply keeps_wf; solve [auto with session]).
      apply commit_tail_wf. auto with session.
    + unfold remove_from_cart.
      apply bind_wf; [apply keeps_wf; auto with session|].
      intros [c|]; [|apply keeps_wf; auto with session].
      apply commit_tail_wf. auto with session.
    + apply keeps_wf, view_cart_keeps_store.
    + unfold checkout.
      apply bind_wf; [apply keeps_wf; auto with session|].
      intros [u|]; [|apply keeps_wf; auto with session].
      apply bind_wf; [apply keeps_wf; auto with session|]. intros l.
      apply commit_tail_wf. apply keeps_for_each. auto with session.
Qed.

(** ** Entering a protected view *)

(** A view under [@login_required] runs only for a user that resolves, and
    then as [current_user.id] it gets the id of the cookie. *)
Lemma login_required_run (view : Z -> M response) (db : DB) (cookie : option Z) :
  run_request (login_required view) db cookie None =
  match cookie with
  | None => (Returned (jsonify (Redirect "login") 302), db, None)
  | Some uid =>
      match User_get uid db with
      | Some u => run_request (view uid) db cookie None
      | None => (Returned (jsonify (Redirect "login") 302), db, cookie)
      end
  end.
Proof.
  unfold run_request, login_required, load_user, unauthorized, query, bind, tick, ret.
  destruct cookie as [uid|]; simpl; [|reflexivity].
  destruct (User_get uid db) as [u|] eqn:Hu; [|reflexivity].
  destruct (User_get_id _ _ _ Hu) as [-> _]. reflexivity.
Qed.

(** ** Every route under a failing engine *)

Lemma keeps_login_user (u : User) : keeps_store (login_user u).
Proof. intros s. reflexivity. Qed.

Lemma keeps_logout_user : keeps_store logout_user.
Proof. intros s. reflexivity. Qed.

Lemma steady_login_user (u : User) : steady (login_user u).
Proof. intros s x s' H. injection H as <- <-. reflexivity. Qed.

Lemma steady_logout_user : steady logout_user.
Proof. intros s x s' H. injection H as <- <-. reflexivity. Qed.

#[local] Hint Resolve keeps_login_user keeps_logout_user steady_login_user
  steady_logout_user : session.

Lemma login_keeps_store (data : login_json) : keeps_store (login data).
Proof.
  unfold login.
  apply keeps_bind; [auto with session|]. intros [u|]; [|auto with session].
  destruct (option_string_eqb _ _); [|auto with session].
  apply keeps_bind; auto with session.
Qed.

Lemma logout_keeps_store : keeps_store logout.
Proof. unfold logout. apply keeps_bind; auto with session. Qed.

Lemma get_product_details_keeps_store (id : Z) : keeps_store (get_product_details id).
Proof.
  unfold get_product_details.
  apply keeps_bind; [auto with session|]. intros [p|]; auto with session.
Qed.

Lemma get_products_keeps_store : keeps_store get_products.
Proof. unfold get_products. apply keeps_bind; auto with session. Qed.

Lemma login_required_all_or_nothing (view : Z -> M response) :
  (forall cur, all_or_nothing (view cur)) -> all_or_nothing (login_required view).
Proof.
  intros Hview s. unfold login_required.
  destruct (logged_in s) as [uid|]; [|intros _; reflexivity].
  apply (bind_all_or_nothing (load_user uid)); [apply keeps_query|].
  intros [u|]; [apply Hview|]. apply keeps_all_or_nothing. unfold unauthorized.
  auto with session.
Qed.

Lemma login_required_steady (view : Z -> M response) :
  (forall cur, steady (view cur)) -> steady (login_required view).
Proof.
  intros Hview s x s'. unfold login_required.
  change (logged_in (relax s)) with (logged_in s).
  destruct (logged_in s) as [uid|].
  - apply (steady_bind (load_user uid)); [apply steady_query|].
    intros [u|]; [apply Hview|]. unfold unauthorized. auto with session.
  - unfold unauthorized. apply steady_ret.
Qed.

Lemma route_all_or_nothing (rq : request) : all_or_nothing (route rq).
Proof.
  destruct rq as [data| |data|id|id|id data| |op]; simpl.
  - apply keeps_all_or_nothing, login_keeps_store.
  - apply login_required_all_or_nothing. intros _.
    apply keeps_all_or_nothing, logout_keeps_store.
  - apply login_required_all_or_nothing. intros _. unfold add_product.
    destruct (has_key _ && has_key _); [|apply keeps_all_or_nothing; auto with session].
    apply bind_all_or_nothing; auto with session.
  - apply login_required_all_or_nothing. intros _. unfold delete_product.
    apply bind_all_or_nothing; [auto with session|].
    intros [p|]; [|apply keeps_all_or_nothing; auto with session].
    apply bind_all_or_nothing; auto with session.
  - apply keeps_all_or_nothing, get_product_details_keeps_store.
  - apply login_required_all_or_nothing. intros _. unfold update_product.
    apply bind_all_or_nothing; [auto with session|].
    intros [p|]; [|apply keeps_all_or_nothing; auto with session].
    apply bind_all_or_nothing; auto with session.
  - apply keeps_all_or_nothing, get_products_keeps_store.
  - apply login_required_all_or_nothing. intros cur. apply cart_view_all_or_nothing.
Qed.

Lemma route_steady (rq : request) : steady (route rq).
Proof.
  destruct rq as [data| |data|id|id|id data| |op]; simpl.
  - unfold login.
    apply steady_bind; [auto with session|]. intros [u|]; [|auto with session].
    destruct (option_string_eqb _ _); [|auto with session].
    apply steady_bind; auto with session.
  - apply login_required_steady. intros _. unfold logout.
    apply steady_bind; auto with session.
  - apply login_required_steady. intros _. unfold add_product.
    destruct (has_key _ && has_key _); [|auto with session].
    repeat (apply steady_bind; [auto with session|]; intros _). auto with session.
  - apply login_required_steady. intros _. unfold delete_product.
    apply steady_bind; [auto with session|]. intros [p|]; [|auto with session].
    repeat (apply steady_bind; [auto with session|]; intros _). auto with session.
  - unfold get_product_details.
    apply steady_bind; [auto with session|]. intros [p|]; auto with session.
  - apply login_required_steady. intros _. unfold update_product.
    apply steady_bind; [auto with session|]. intros [p|]; [|auto with session].
    repeat (apply steady_bind; [auto with session|]; intros _). auto with session.
  - unfold get_products. apply steady_bind; auto with session.
  - apply login_required_steady. intros cur. apply cart_view_steady.
Qed.

(** A request under any failure of the engine either does not answer 200
    and leaves the store, or does what it does with the engine working. *)
Lemma route_atomic (rq : request) (db : DB) (cookie : option Z) (failing : option nat) :
  (succeeded (outcome_of (run_request (route rq) db cookie failing)) = false /\
   store_of (run_request (route rq) db cookie failing) = db) \/
  (succeeded (outcome_of (run_request (route rq) db cookie failing)) = true /\
   run_request (route rq) db cookie failing = run_request (route rq) db cookie None).
Proof.
  unfold run_request, outcome_of, store_of.
  pose proof (route_all_or_nothing rq
                {| store := db; pending := []; logged_in := cookie; faults := failing |})
    as Hfailed.
  pose proof (route_steady rq
                {| store := db; pending := []; logged_in := cookie; faults := failing |})
    as Hdone.
  destruct (route rq _) as [r s] eqn:Hrun in Hfailed, Hdone |- *.
  simpl in *.
  destruct (succeeded r) eqn:Hr.
  - right. split; [reflexivity|].
    destruct r as [resp|e]; [|discriminate].
    specialize (Hdone resp s eq_refl). unfold relax in Hdone. simpl in Hdone.
    rewrite Hdone. reflexivity.
  - left. split; [reflexivity|]. apply Hfailed. reflexivity.
Qed.

(** X1: every route of the application, the catalog writes and the
    decorated cart routes included, is all-or-nothing under a failure of
    the engine at any session call: a request that does not answer 200
    leaves the store as it was, and one that answers 200 has the outcome,
    the store and the cookie of the run in which nothing fails. *)
Theorem every_request_all_or_nothing :
  forall (rq : request) (db : DB) (cookie : option Z) (failing : option nat),
    (succeeded (outcome_of (run_request (route rq) db cookie failing)) = false ->
       store_of (run_request (route rq) db cookie failing) = db) /\
    (succeeded (outcome_of (run_request (route rq) db cookie failing)) = true ->
       run_request (route rq) db cookie failing = run_request (route rq) db cookie None).
Proof.
  intros rq db cookie failing.
  destruct (route_atomic rq db cookie failing) as [[Hf Hs]|[Ht Heq]].
  - split; [intros _; exact Hs|]. rewrite Hf. discriminate.
  - split; [rewrite Ht; discriminate|]. intros _. exact Heq.
Qed.

(** The engine fails at the commit of an update and of a delete of a
    product: the catalog is as before. *)
Lemma every_request_all_or_nothing_witness :
  store_of (run_request
     (route (UpdateProduct 1 {| json_name := Value "Pencil"; json_price := Absent;
                                json_description := Absent |}))
     sample_db (Some 1) (Some 3%nat)) = sample_db /\
  store_of (run_request (route (DeleteProduct 2)) sample_db (Some 1) (Some 3%nat)) =
    sample_db /\
  run_request (route (AddProduct {| json_name := Value "Cap"; json_price := Value (Integer 5);
                                    json_description := Null |}))
    sample_db (Some 2) (Some 3%nat) =
  run_request (route (AddProduct {| json_name := Value "Cap"; json_price := Value (Integer 5);
                                    json_description := Null |}))
    sample_db (Some 2) None.
Proof.
  split; [|split].
  - apply (every_request_all_or_nothing
             (UpdateProduct 1 {| json_name := Value "Pencil"; json_price := Absent;
                                 json_description := Absent |})
             sample_db (Some 1) (Some 3%nat)).
    reflexivity.
  - apply (every_request_all_or_nothing (DeleteProduct 2) sample_db (Some 1) (Some 3%nat)).
    reflexivity.
  - apply (every_request_all_or_nothing
             (AddProduct {| json_name := Value "Cap"; json_price := Value (Integer 5);
                            json_description := Null |})
             sample_db (Some 2) (Some 3%nat)).
    reflexivity.
Defined.

(** ** What a request can do to the store *)

Lemma run_keeps_store {X} (m : M X) (db : DB) (cookie : option Z) (failing : option nat) :
  keeps_store m -> store_of (run_request m db cookie failing) = db.
Proof.
  intros Hm. unfold run_request, store_of.
  specialize (Hm {| store := db; pending := []; logged_in := cookie; faults := failing |}).
  destruct (m _) as [r s]. exact Hm.
Qed.

Lemma cart_view_transition (op : cart_op) (cur : Z) (db : DB) (cookie : option Z) :
  transition db (store_of (run_request (cart_view op cur) db cookie None)).
Proof.
  destruct op as [P|P| |]; simpl.
  - rewrite add_to_cart_run.
    destruct (User_get cur db) as [u|] eqn:Hu; [|destruct (in_range P); apply unchanged].
    destruct (Product_get P db) as [p|] eqn:Hp; [|destruct (in_range P); apply unchanged].
    destruct (User_get_id _ _ _ Hu) as [Hui _].
    destruct (Product_get_id _ _ _ Hp) as [Hpi _].
    apply item_added; congruence.
  - rewrite remove_from_cart_run. destruct (in_range P); [|apply unchanged].
    destruct (CartItem_first cur P db) as [c|]; [|apply unchanged].
    apply (items_deleted db (fun d => negb (CartItem_id d =? CartItem_id c))).
  - rewrite run_keeps_store by apply view_cart_keeps_store. apply unchanged.
  - rewrite checkout_run.
    destruct (User_get cur db) as [u|]; [|apply unchanged].
    apply (items_deleted db
             (fun c => negb (in_ids (map CartItem_id (User_cart u db)) (CartItem_id c)))).
Qed.

Lemma protected_transition (view : Z -> M response) (db : DB) (cookie : option Z) :
  (forall cur, transition db (store_of (run_request (view cur) db cookie None))) ->
  transition db (store_of (run_request (login_required view) db cookie None)).
Proof.
  intros Hview. rewrite login_required_run.
  destruct cookie as [uid|]; [|apply unchanged].
  destruct (User_get uid db); [apply Hview|apply unchanged].
Qed.

Lemma route_transition (rq : request) (db : DB) (cookie : option Z) :
  transition db (store_of (run_request (route rq) db cookie None)).
Proof.
  destruct rq as [data| |data|id|id|id data| |op]; simpl.
  - rewrite run_keeps_store by apply login_keeps_store. apply unchanged.
  - apply protected_transition. intros _.
    rewrite run_keeps_store by apply logout_keeps_store. apply unchanged.
  - apply protected_transition. intros _. rewrite add_product_run.
    destruct (json_name data), (json_price data) as [| |x]; try apply unchanged;
      destruct (to_float x); first [apply unchanged | apply product_added].
  - apply protected_transition. intros _. rewrite delete_product_run.
    destruct (Product_get id db) as [p|];
      [apply product_deleted|destruct (in_range id); apply unchanged].
  - rewrite run_keeps_store by apply get_product_details_keeps_store. apply unchanged.
  - apply protected_transition. intros _. rewrite update_product_run.
    destruct (Product_get id db) as [p|]; [|destruct (in_range id); apply unchanged].
    destruct (bind_price (json_price data)) as [price|]; [|apply unchanged].
    destruct (update_where _ _ _) as [ps|] eqn:Hps; [|apply unchanged].
    apply products_updated. eapply update_where_ids. exact Hps.
  - rewrite run_keeps_store by apply get_products_keeps_store. apply unchanged.
  - apply protected_transition. intros cur. apply cart_view_transition.
Qed.

(** Whatever the request, the cookie and the failures of the engine, the
    store changes in one of the six ways of [transition]. *)
Lemma request_transition (rq : request) (db : DB) (cookie : option Z)
    (failing : option nat) :
  transition db (store_of (run_request (route rq) db cookie failing)).
Proof.
  destruct (route_atomic rq db cookie failing) as [[_ ->]|[_ ->]];
    [apply unchanged|apply route_transition].
Qed.

Lemma transition_users (db db' : DB) : transition db db' -> users db' = users db.
Proof. intros []; reflexivity. Qed.

Lemma transition_wf (db db' : DB) : wf_db db -> transition db db' -> wf_db db'.
Proof.
  intros [Hu Hn Hp Hc] [ |n pr d|ps Hps|id|u p _ _|keep];
    constructor; simpl; try assumption.
  - rewrite map_app. simpl. apply NoDup_snoc; [exact Hp|apply next_id_fresh].
  - rewrite Hps. exact Hp.
  - apply unique_after_delete, Hp.
  - rewrite map_app. simpl. apply NoDup_snoc; [exact Hc|apply next_id_fresh].
  - apply unique_after_delete, Hc.
Qed.

Lemma transition_owners (db db' : DB) :
  owners_exist db -> transition db db' -> owners_exist db'.
Proof.
  intros Hown [ |n pr d|ps Hps|id|u p Hu _|keep]; try exact Hown;
    intros c Hc; simpl in Hc.
  - apply in_app_or in Hc as [Hc|[<-|[]]]; [exact (Hown c Hc)|].
    exists u. exact Hu.
  - apply filter_In in Hc as [Hc _]. exact (Hown c Hc).
Qed.

(** An invariant of single requests is an invariant of a client's run. *)
Lemma serve_invariant (I : DB -> Prop) :
  (forall db db', I db -> transition db db' -> I db') ->
  forall calls db cookie, I db -> I (fst (serve calls (db, cookie))).
Proof.
  intros Hstep calls. unfold serve.
  induction calls as [|[rq failing] calls IHcalls]; intros db cookie Hdb; [exact Hdb|].
  simpl. unfold step at 2. simpl. apply IHcalls.
  apply (Hstep db); [exact Hdb|apply request_transition].
Qed.

(** X2: no request writes the User table: after any sequence of
    requests of a client, whatever the engine does, the users are the users
    the store began with. *)
Theorem serve_never_writes_users :
  forall (calls : list (request * option nat)) (db : DB) (cookie : option Z),
    users (fst (serve calls (db, cookie))) = users db.
Proof.
  intros calls db cookie.
  apply (serve_invariant (fun db' => users db' = users db)); [|reflexivity].
  intros d d' Hd Ht. rewrite (transition_users _ _ Ht). exact Hd.
Qed.

(** X3: unique primary keys and unique usernames are an invariant of
    the application: a store that has them keeps them through any sequence
    of requests, with or without failures of the engine. *)
Theorem serve_keeps_keys_unique :
  forall (calls : list (request * option nat)) (db : DB) (cookie : option Z),
    wf_db db -> wf_db (fst (serve calls (db, cookie))).
Proof.
  intros calls db cookie. apply (serve_invariant wf_db). exact transition_wf.
Qed.

(** X4: on the side of the user the references of the cart never
    dangle: if every CartItem belongs to a user of the User table, it does
    so after any sequence of requests. *)
Theorem serve_keeps_cart_owners :
  forall (calls : list (request * option nat)) (db : DB) (cookie : option Z),
    owners_exist db -> owners_exist (fst (serve calls (db, cookie))).
Proof.
  intros calls db cookie. apply (serve_invariant owners_exist). exact transition_owners.
Qed.

Lemma serve_keeps_keys_unique_witness :
  wf_db sample_db /\
  wf_db (fst (serve
    [ (Login {| json_username := Value "alice"; json_password := Value "secret" |}, None);
      (Cart (AddToCart 2), None);
      (DeleteProduct 1, Some 2%nat);
      (AddProduct {| json_name := Value "Cap"; json_price := Value (Integer 5);
                     json_description := Absent |}, None);
      (Cart Checkout, None) ]
    (sample_db, None))).
Proof.
  assert (Hwf : wf_db sample_db).
  { constructor; simpl; repeat constructor; simpl; intuition discriminate. }
  split; [exact Hwf|]. apply serve_keeps_keys_unique. exact Hwf.
Defined.

Lemma serve_keeps_cart_owners_witness :
  owners_exist sample_db /\
  owners_exist (fst (serve
    [ (Login {| json_username := Value "bob"; json_password := Absent |}, None);
      (Cart (AddToCart 2), None);
      (Cart (RemoveFromCart 1), None) ]
    (sample_db, None))).
Proof.
  assert (Hown : owners_exist sample_db).
  { intros c Hc. simpl in Hc.
    repeat (destruct Hc as [<-|Hc]; [eexists; reflexivity|]). contradiction. }
  split; [exact Hown|]. apply serve_keeps_cart_owners. exact Hown.
Defined.

(** ** Sessions *)

Lemma anonymous_request (rq : request) (db : DB) (failing : option nat) :
  is_login rq = false -> step (db, None) (rq, failing) = (db, None).
Proof.
  unfold step, store_of, cookie_of. simpl.
  destruct rq as [data| |data|id|id|id data| |op]; simpl; intros Hrq;
    try discriminate; try reflexivity.
  - unfold get_product_details. destruct failing as [[|n]|]; run_view;
      try reflexivity; destruct (in_range id); try reflexivity;
      destruct (Product_get id db); reflexivity.
  - unfold get_products. destruct failing as [[|n]|]; run_view; reflexivity.
Qed.

(** X5: a client that never logs in never writes: from no cookie, any
    sequence of requests without a login, whatever the engine does, leaves
    the store and the (absent) cookie as they were. *)
Theorem anonymous_client_never_writes :
  forall (calls : list (request * option nat)) (db : DB),
    forallb (fun call => negb (is_login (fst call))) calls = true ->
    serve calls (db, None) = (db, None).
Proof.
  unfold serve. induction calls as [|[rq failing] calls IHcalls]; intros db Hcalls;
    [reflexivity|].
  simpl in Hcalls. apply andb_true_iff in Hcalls as [Hrq Hrest].
  apply negb_true_iff in Hrq. simpl.
  rewrite anonymous_request by exact Hrq. apply IHcalls, Hrest.
Qed.

Lemma anonymous_client_never_writes_witness :
  serve [ (Cart (AddToCart 1), None);
          (DeleteProduct 1, None);
          (UpdateProduct 2 {| json_name := Value "Gel"; json_price := Absent;
                              json_description := Absent |}, Some 1%nat);
          (Cart Checkout, None);
          (GetProduct 1, None);
          (Logout, None) ]
        (sample_db, None) = (sample_db, None).
Proof. apply anonymous_client_never_writes. reflexivity. Defined.

Lemma User_get_present (u : User) (db : DB) :
  In u (users db) -> exists u', User_get (User_id u) db = Some u'.
Proof.
  intros Hin. unfold User_get.
  destruct (find _ (users db)) as [u'|] eqn:Hfind; [exists u'; reflexivity|].
  pose proof (find_none _ _ Hfind u Hin) as Hno. simpl in Hno.
  rewrite Z.eqb_refl in Hno. discriminate.
Qed.

(** X6: a successful login opens the session the protected routes
    use: with usernames unique, after [login] with the credentials of a user
    the store is untouched, the cookie holds that user's id, and a cart
    route requested next runs its view with that id as [current_user.id]. *)
Theorem login_opens_session :
  forall (db : DB) (cookie : option Z) (data : login_json) (u : User) (op : cart_op),
    NoDup (map User_username (users db)) ->
    In u (users db) ->
    credentials_of data u ->
    step (db, cookie) (Login data, None) = (db, Some (User_id u)) /\
    run_request (route (Cart op)) db (Some (User_id u)) None =
      run_request (cart_view op (User_id u)) db (Some (User_id u)) None.
Proof.
  intros db cookie data u op Hnd Hin [Hname Hpw]. split.
  - unfold step, store_of, cookie_of. simpl. rewrite login_run, Hname. simpl.
    rewrite find_by_username by assumption.
    replace (option_string_eqb _ _) with true; [reflexivity|].
    symmetry. apply option_string_eqb_eq, Hpw.
  - simpl. rewrite login_required_run.
    destruct (User_get_present u db Hin) as [u' ->]. reflexivity.
Qed.

Lemma login_opens_session_witness :
  step (sample_db, None)
       (Login {| json_username := Value "bob"; json_password := Null |}, None) =
    (sample_db, Some 2) /\
  run_request (route (Cart (AddToCart 2))) sample_db (Some 2) None =
    run_request (cart_view (AddToCart 2) 2) sample_db (Some 2) None.
Proof.
  apply (login_opens_session sample_db None
           {| json_username := Value "bob"; json_password := Null |}
           {| User_id := 2; User_username := "bob"; User_password := None |}
           (AddToCart 2)).
  - simpl. repeat constructor; simpl; intuition discriminate.
  - right. left. reflexivity.
  - split; reflexivity.
Defined.

(** X7: [logout] of a logged-in user answers 200, clears the cookie and
    leaves the store; the protected request that follows is sent to the
    login view (302) and writes nothing. *)
Theorem logout_closes_session :
  forall (db : DB) (uid : Z) (u : User) (rq : request) (failing : option nat),
    User_get uid db = Some u ->
    is_login rq = false ->
    run_request (route Logout) db (Some uid) None =
      (Returned (jsonify (Message "Logout realizado com sucesso") 200), db, None) /\
    serve [(Logout, None); (rq, failing)] (db, Some uid) = (db, None) /\
    (forall op, outcome_of (run_request (route (Cart op)) db None failing) =
                Returned (jsonify (Redirect "login") 302)).
Proof.
  intros db uid u rq failing Hu Hrq.
  assert (Hout : run_request (route Logout) db (Some uid) None =
            (Returned (jsonify (Message "Logout realizado com sucesso") 200), db, None)).
  { simpl. unfold logout_route. rewrite login_required_run, Hu. reflexivity. }
  split; [exact Hout|]. split.
  - unfold serve. simpl. unfold step at 2. simpl fst. simpl snd.
    rewrite Hout. unfold store_of, cookie_of. simpl.
    apply anonymous_request, Hrq.
  - intros op. reflexivity.
Qed.

Lemma logout_closes_session_witness :
  serve [(Logout, None); (Cart Checkout, None)] (sample_db, Some 1) = (sample_db, None).
Proof.
  apply (logout_closes_session sample_db 1
           {| User_id := 1; User_username := "alice"; User_password := Some "secret" |}
           (Cart Checkout) None eq_refl eq_refl).
Defined.

(** ** Catalog: updates, deletions and the product list *)






(** A null name together with an integer price beyond every float: the
    float of the price raises before the NOT NULL column is asked. *)
Lemma update_product_null_name_and_huge_price :
  outcome_of (run_request
      (update_product 2 {| json_name := Null; json_price := Value (Integer (2 ^ 1024));
                           json_description := Absent |}) sample_db None None) =
    Raised StatementError.
Proof. vm_compute. reflexivity. Qed.



Lemma find_after_delete (id i : Z) (rows : list Product) :
  i <> id ->
  find (fun x => Product_id x =? i) (filter (fun q => negb (Product_id q =? id)) rows) =
  find (fun x => Product_id x =? i) rows.
Proof.
  intros Hi. induction rows as [|x rows IHrows]; [reflexivity|]. simpl.
  destruct (Product_id x =? id) eqn:Hx; simpl.
  - apply Z.eqb_eq in Hx. replace (Product_id x =? i) with false; [exact IHrows|].
    symmetry. apply Z.eqb_neq. congruence.
  - rewrite IHrows. reflexivity.
Qed.



(** X11: [delete_product] takes away the requested product only: after
    it, [get_product_details] answers 404 for that id and, for every other
    id, what it answered before. *)
Theorem delete_product_keeps_others :
  forall (db : DB) (cookie : option Z) (id : Z) (p : Product),
    Product_get id db = Some p ->
    outcome_of (run_request (get_product_details id)
        (store_of (run_request (delete_product id) db cookie None)) cookie None) =
      Returned (jsonify (Message "Produto não encontrado") 404) /\
    (forall i, i <> id ->
       outcome_of (run_request (get_product_details i)
           (store_of (run_request (delete_product id) db cookie None)) cookie None) =
         outcome_of (run_request (get_product_details i) db cookie None)).
Proof.
  intros db cookie id p Hp. rewrite delete_product_run, Hp.
  destruct (Product_get_id _ _ _ Hp) as [Hpid _].
  unfold store_of. simpl. split.
  - rewrite get_product_details_run. unfold outcome_of. simpl.
    rewrite (Product_get_in_range _ _ _ Hp).
    replace (Product_get id _) with (@None Product); [reflexivity|].
    symmetry. apply Product_get_none. simpl. intros Hmem.
    apply in_map_iff in Hmem as (q & Hq & Hmem). apply filter_In in Hmem as [_ Hne].
    rewrite Hpid, Hq, Z.eqb_refl in Hne. discriminate.
  - intros i Hi. rewrite !get_product_details_run. unfold outcome_of. simpl.
    unfold Product_get. simpl. rewrite Hpid, find_after_delete by exact Hi.
    reflexivity.
Qed.

Lemma delete_product_keeps_others_witness :
  outcome_of (run_request (get_product_details 1)
      (store_of (run_request (delete_product 1) sample_db None None)) None None) =
    Returned (jsonify (Message "Produto não encontrado") 404) /\
  outcome_of (run_request (get_product_details 2)
      (store_of (run_request (delete_product 1) sample_db None None)) None None) =
    Returned (jsonify (ProductDetails 2 "Ink" (Finite (4 # 1)) None) 200).
Proof.
  destruct (delete_product_keeps_others sample_db None 1
              {| Product_id := 1; Product_name := "Pen"; Product_price := Finite (3 # 2);
                 Product_description := Some "" |} eq_refl) as [Hgone Hothers].
  split; [exact Hgone|]. apply (Hothers 2). discriminate.
Defined.

(** ** Cart: how the operations compose *)

Lemma same_store (db : DB) :
  {| users := users db; products := products db; cart_items := cart_items db |} = db.
Proof. destruct db. reflexivity. Qed.

Lemma fresh_id_survives (rows : list CartItem) :
  filter (fun d => negb (CartItem_id d =? next_id (map CartItem_id rows))) rows = rows.
Proof.
  apply filter_everything. intros d Hd. apply negb_true_iff, Z.eqb_neq.
  intros Heq. apply (next_id_fresh (map CartItem_id rows)).
  rewrite <- Heq. apply in_map, Hd.
Qed.

(** X12: [remove_from_cart] undoes [add_to_cart].  When user and
    product resolve and the cart holds no row for (U, P), adding and then
    removing answers 200 twice and gives back the store exactly.  When the
    cart already holds such a row, the removal takes the oldest one and the
    row just added stays, at the end of the table. *)
Theorem add_then_remove :
  forall (db : DB) (cookie : option Z) (U P : Z) (u : User) (p : Product),
    User_get U db = Some u ->
    Product_get P db = Some p ->
    outcome_of (run_request (remove_from_cart P U)
        (store_of (run_request (add_to_cart P U) db cookie None)) cookie None) =
      Returned (jsonify (Message "O Item foi Removido com Sucesso") 200) /\
    (CartItem_first U P db = None ->
       store_of (run_request (remove_from_cart P U)
         (store_of (run_request (add_to_cart P U) db cookie None)) cookie None) = db) /\
    (forall c, CartItem_first U P db = Some c ->
       cart_items (store_of (run_request (remove_from_cart P U)
         (store_of (run_request (add_to_cart P U) db cookie None)) cookie None)) =
       filter (fun d => negb (CartItem_id d =? CartItem_id c)) (cart_items db) ++
       [{| CartItem_id := next_id (map CartItem_id (cart_items db));
           CartItem_user_id := U; CartItem_product_id := P |}]).
Proof.
  intros db cookie U P u p Hu Hp.
  destruct (User_get_id _ _ _ Hu) as [Hui _].
  destruct (Product_get_id _ _ _ Hp) as [Hpi _].
  assert (Hadded : store_of (run_request (add_to_cart P U) db cookie None) =
            {| users := users db; products := products db;
               cart_items := cart_items db ++
                 [{| CartItem_id := next_id (map CartItem_id (cart_items db));
                     CartItem_user_id := U; CartItem_product_id := P |}] |}).
  { rewrite add_to_cart_run, Hu, Hp, Hui, Hpi. reflexivity. }
  rewrite Hadded.
  rewrite remove_from_cart_run, (Product_get_in_range _ _ _ Hp).
  unfold CartItem_first. simpl.
  assert (Hnew : matches U P {| CartItem_id := next_id (map CartItem_id (cart_items db));
                                CartItem_user_id := U; CartItem_product_id := P |} = true).
  { unfold matches. simpl. rewrite !Z.eqb_refl. reflexivity. }
  destruct (find (matches U P) (cart_items db)) as [c|] eqn:Hfirst.
  - rewrite (find_app_found _ _ _ _ Hfirst). unfold outcome_of, store_of. simpl.
    split; [reflexivity|]. split; [discriminate|].
    intros c' Hc'. injection Hc' as <-.
    rewrite filter_app. simpl.
    apply find_some in Hfirst as [Hin _].
    rewrite (Z.eqb_sym (next_id (map CartItem_id (cart_items db))) (CartItem_id c)).
    replace (CartItem_id c =? next_id (map CartItem_id (cart_items db))) with false.
    + reflexivity.
    + symmetry. apply Z.eqb_neq. intros Heq.
      apply (next_id_fresh (map CartItem_id (cart_items db))).
      rewrite <- Heq. apply in_map, Hin.
  - rewrite find_past by (intros d Hd; exact (find_none _ _ Hfirst d Hd)).
    simpl. rewrite Hnew. unfold outcome_of, store_of. simpl.
    split; [reflexivity|]. split; [|discriminate].
    intros _. rewrite filter_app. simpl. rewrite Z.eqb_refl. simpl.
    rewrite fresh_id_survives, app_nil_r. apply same_store.
Qed.

Lemma add_then_remove_witness :
  store_of (run_request (remove_from_cart 2 2)
    (store_of (run_request (add_to_cart 2 2) sample_db None None)) None None) =
    sample_db /\
  cart_items (store_of (run_request (remove_from_cart 1 2)
    (store_of (run_request (add_to_cart 1 2) sample_db None None)) None None)) =
    [ {| CartItem_id := 1; CartItem_user_id := 1; CartItem_product_id := 1 |};
      {| CartItem_id := 3; CartItem_user_id := 1; CartItem_product_id := 1 |};
      {| CartItem_id := 4; CartItem_user_id := 1; CartItem_product_id := 2 |};
      {| CartItem_id := 5; CartItem_user_id := 2; CartItem_product_id := 1 |} ].
Proof.
  destruct (add_then_remove sample_db None 2 2
              {| User_id := 2; User_username := "bob"; User_password := None |}
              {| Product_id := 2; Product_name := "Ink"; Product_price := Finite (4 # 1);
                 Product_description := None |} eq_refl eq_refl) as (_ & Hback & _).
  destruct (add_then_remove sample_db None 2 1
              {| User_id := 2; User_username := "bob"; User_password := None |}
              {| Product_id := 1; Product_name := "Pen"; Product_price := Finite (3 # 2);
                 Product_description := Some "" |} eq_refl eq_refl) as (_ & _ & Holdest).
  split; [apply Hback; reflexivity|].
  apply (Holdest {| CartItem_id := 2; CartItem_user_id := 2; CartItem_product_id := 1 |}).
  reflexivity.
Defined.

Lemma checkout_of_empty_cart (db : DB) (cookie : option Z) (U : Z) (u : User) :
  User_get U db = Some u ->
  filter (owned_by U) (cart_items db) = [] ->
  run_request (checkout U) db cookie None =
    (Returned (jsonify (Message "Checkout com sucesso. carrinho foi limpo") 200),
     db, cookie).
Proof.
  intros Hu Hempty. rewrite checkout_run, Hu.
  destruct (User_get_id _ _ _ Hu) as [Hid _].
  unfold User_cart. rewrite Hid, Hempty. simpl.
  rewrite filter_everything by reflexivity. rewrite same_store. reflexivity.
Qed.

Lemma checkout_leaves_none (db : DB) (cookie : option Z) (U : Z) (u : User) :
  User_get U db = Some u ->
  filter (owned_by U)
    (cart_items (store_of (run_request (checkout U) db cookie None))) = [].
Proof.
  intros Hu. rewrite checkout_run, Hu. unfold store_of. simpl.
  destruct (User_get_id _ _ _ Hu) as [Hid _].
  apply filter_nothing. intros c Hc. apply filter_In in Hc as [Hin Hkept].
  destruct (owned_by U c) eqn:Hown; [|reflexivity].
  exfalso. apply negb_true_iff in Hkept.
  assert (Hmem : in_ids (map CartItem_id (User_cart u db)) (CartItem_id c) = true).
  { apply in_ids_spec, in_map. unfold User_cart. apply filter_In.
    rewrite Hid. split; assumption. }
  rewrite Hmem in Hkept. discriminate.
Qed.

(** X13: [checkout] of an empty cart is not an error: it answers 200
    and the store is exactly as before; and so a second [checkout] right
    after a first one answers 200 again and changes nothing more. *)
Theorem checkout_twice :
  forall (db : DB) (cookie : option Z) (U : Z) (u : User),
    User_get U db = Some u ->
    (filter (owned_by U) (cart_items db) = [] ->
       run_request (checkout U) db cookie None =
         (Returned (jsonify (Message "Checkout com sucesso. carrinho foi limpo") 200),
          db, cookie)) /\
    run_request (checkout U)
        (store_of (run_request (checkout U) db cookie None)) cookie None =
      (Returned (jsonify (Message "Checkout com sucesso. carrinho foi limpo") 200),
       store_of (run_request (checkout U) db cookie None), cookie).
Proof.
  intros db cookie U u Hu. split.
  - apply checkout_of_empty_cart with (u := u). exact Hu.
  - apply checkout_of_empty_cart with (u := u).
    + rewrite checkout_run, Hu. exact Hu.
    + apply checkout_leaves_none with (u := u). exact Hu.
Qed.

Lemma checkout_twice_witness :
  store_of (run_request (checkout 1)
    (store_of (run_request (checkout 1) sample_db None None)) None None) =
  store_of (run_request (checkout 1) sample_db None None).
Proof.
  destruct (checkout_twice sample_db None 1
              {| User_id := 1; User_username := "alice"; User_password := Some "secret" |}
              eq_refl) as [_ Hagain].
  rewrite Hagain. reflexivity.
Defined.

(** One call of [remove_from_cart] while a matching row is left. *)
Lemma remove_once (db : DB) (U P : Z) (n : nat) :
  NoDup (map CartItem_id (cart_items db)) ->
  in_range P = true ->
  List.length (filter (matches U P) (cart_items db)) = S n ->
  NoDup (map CartItem_id
    (cart_items (store_of (run_request (remove_from_cart P U) db None None)))) /\
  List.length (filter (matches U P)
    (cart_items (store_of (run_request (remove_from_cart P U) db None None)))) = n /\
  filter (fun c => negb (matches U P c))
    (cart_items (store_of (run_request (remove_from_cart P U) db None None))) =
    filter (fun c => negb (matches U P c)) (cart_items db) /\
  users (store_of (run_request (remove_from_cart P U) db None None)) = users db /\
  products (store_of (run_request (remove_from_cart P U) db None None)) = products db.
Proof.
  intros Hunique Hrange Hcount. rewrite remove_from_cart_run, Hrange.
  unfold CartItem_first.
  destruct (find (matches U P) (cart_items db)) as [c|] eqn:Hfirst.
  - destruct (first_match_split _ _ _ Hfirst) as (before & after & Hrows & Hc & Hbefore).
    unfold store_of. simpl.
    assert (Hdel : filter (fun d => negb (CartItem_id d =? CartItem_id c)) (cart_items db) =
                   before ++ after).
    { rewrite Hrows in Hunique |- *. apply delete_by_id_split, Hunique. }
    split; [apply unique_after_delete, Hunique|].
    rewrite Hdel. rewrite Hrows in Hcount |- *.
    assert (Hat : forall keep : CartItem -> bool,
              filter keep (before ++ c :: after) =
              filter keep before ++ (if keep c then [c] else []) ++ filter keep after).
    { intros keep. rewrite filter_app. simpl. destruct (keep c); reflexivity. }
    rewrite Hat in Hcount. rewrite Hc, !length_app in Hcount. simpl in Hcount.
    split; [rewrite filter_app, length_app; lia|].
    split; [|split; reflexivity].
    rewrite Hat, Hc, filter_app. reflexivity.
  - exfalso.
    rewrite filter_nothing in Hcount by (intros d Hd; exact (find_none _ _ Hfirst d Hd)).
    discriminate.
Qed.

(** X14: duplicates go one call at a time.  With CartItem ids unique,
    a product id within 64 bits and [n] rows of the cart matching (U, P),
    [n] calls of [remove_from_cart] leave exactly the rows that do not
    match, in their order, with users and products untouched, and the call
    after them answers 400. *)
Theorem remove_from_cart_repeatedly :
  forall (n : nat) (db : DB) (U P : Z),
    NoDup (map CartItem_id (cart_items db)) ->
    in_range P = true ->
    List.length (filter (matches U P) (cart_items db)) = n ->
    cart_items (remove_repeatedly n P U db) =
      filter (fun c => negb (matches U P c)) (cart_items db) /\
    users (remove_repeatedly n P U db) = users db /\
    products (remove_repeatedly n P U db) = products db /\
    outcome_of (run_request (remove_from_cart P U) (remove_repeatedly n P U db) None None) =
      Returned (jsonify (Message "Falha ao Remover ao Carrinho") 400).
Proof.
  induction n as [|n IHn]; intros db U P Hunique Hrange Hcount; simpl.
  - assert (Hnone : forall c, In c (cart_items db) -> matches U P c = false).
    { intros c Hc. destruct (matches U P c) eqn:Hm; [|reflexivity].
      exfalso. assert (Hin : In c (filter (matches U P) (cart_items db)))
        by (apply filter_In; split; assumption).
      destruct (filter (matches U P) (cart_items db)); [contradiction|discriminate]. }
    repeat split.
    + symmetry. apply filter_everything. intros c Hc. rewrite (Hnone c Hc). reflexivity.
    + rewrite remove_from_cart_run, Hrange. unfold CartItem_first.
      destruct (find (matches U P) (cart_items db)) as [c|] eqn:Hfirst; [|reflexivity].
      apply find_some in Hfirst as [Hin Hm]. rewrite (Hnone c Hin) in Hm. discriminate.
  - destruct (remove_once db U P n Hunique Hrange Hcount)
      as (Hu' & Hc' & Hrest & Husers & Hprods).
    destruct (IHn _ U P Hu' Hrange Hc') as (Hcart & Hus & Hps & Hlast).
    repeat split; [congruence|congruence|congruence|exact Hlast].
Qed.

(** Alice holds the Pen twice: two calls leave her Ink and bob's Pen. *)
Lemma remove_from_cart_repeatedly_witness :
  cart_items (remove_repeatedly 2 1 1 sample_db) =
    [ {| CartItem_id := 2; CartItem_user_id := 2; CartItem_product_id := 1 |};
      {| CartItem_id := 4; CartItem_user_id := 1; CartItem_product_id := 2 |} ] /\
  outcome_of (run_request (remove_from_cart 1 1) (remove_repeatedly 2 1 1 sample_db)
                None None) =
    Returned (jsonify (Message "Falha ao Remover ao Carrinho") 400).
Proof.
  assert (Hunique : NoDup (map CartItem_id (cart_items sample_db))).
  { simpl. repeat constructor; simpl; intuition discriminate. }
  destruct (remove_from_cart_repeatedly 2 sample_db 1 1 Hunique eq_refl eq_refl)
    as (Hcart & _ & _ & Hlast).
  split; [exact Hcart|exact Hlast].
Defined.

Lemma cart_view_frame (op : cart_op) (U V : Z) (db : DB) (cookie : option Z)
    (failing : option nat) :
  NoDup (map CartItem_id (cart_items db)) -> V <> U ->
  filter (owned_by U)
    (cart_items (store_of (run_request (cart_view op V) db cookie failing))) =
    filter (owned_by U) (cart_items db) /\
  products (store_of (run_request (cart_view op V) db cookie failing)) = products db /\
  users (store_of (run_request (cart_view op V) db cookie failing)) = users db.
Proof.
  intros Hunique Hne.
  destruct (cart_view_atomic op V db cookie failing) as [[_ ->]|(_ & _ & ->)];
    [repeat split|].
  assert (Hdeleted : forall gone : list CartItem,
            (forall c, In c gone -> In c (cart_items db) /\ CartItem_user_id c = V) ->
            filter (owned_by U)
              (filter (fun c => negb (in_ids (map CartItem_id gone) (CartItem_id c)))
                      (cart_items db)) =
            filter (owned_by U) (cart_items db))
    by (intros gone; apply others_survive; assumption).
  destruct op as [P|P| |]; simpl.
  - rewrite add_to_cart_run.
    destruct (User_get V db) as [v|] eqn:Hv; [|destruct (in_range P); repeat split].
    destruct (Product_get P db) as [p|]; [|destruct (in_range P); repeat split].
    destruct (User_get_id _ _ _ Hv) as [Hid _].
    unfold store_of. simpl. repeat split.
    rewrite filter_app. simpl.
    replace (owned_by U _) with false; [apply app_nil_r|].
    symmetry. unfold owned_by. simpl. apply Z.eqb_neq. congruence.
  - rewrite remove_from_cart_run. destruct (in_range P); [|repeat split].
    destruct (CartItem_first V P db) as [c|] eqn:Hc; [|repeat split].
    unfold store_of. simpl. repeat split.
    unfold CartItem_first in Hc. apply find_some in Hc as [Hin Hm].
    apply matches_owner in Hm.
    rewrite <- (Hdeleted [c]) by (intros d [<-|[]]; split; assumption).
    f_equal. apply filter_ext. intros d. unfold in_ids. simpl.
    rewrite orb_false_r. reflexivity.
  - rewrite view_cart_run. repeat split.
  - rewrite checkout_run.
    destruct (User_get V db) as [v|] eqn:Hv; [|repeat split].
    destruct (User_get_id _ _ _ Hv) as [Hid _].
    unfold store_of. simpl. repeat split.
    apply Hdeleted. intros c Hc. unfold User_cart in Hc.
    apply filter_In in Hc as [Hin Hown]. apply owned_by_spec in Hown.
    split; congruence.
Qed.

(** [view_cart] reads the users, the products and the caller's rows only. *)
Lemma view_cart_reads (db db' : DB) (cookie : option Z) (U : Z) :
  users db' = users db ->
  products db' = products db ->
  filter (owned_by U) (cart_items db') = filter (owned_by U) (cart_items db) ->
  outcome_of (run_request (view_cart U) db' cookie None) =
  outcome_of (run_request (view_cart U) db cookie None).
Proof.
  intros Husers Hproducts Hrows. rewrite !view_cart_run. unfold outcome_of. simpl.
  unfold User_get. rewrite Husers.
  destruct (find _ (users db)) as [u|] eqn:Hu; [|reflexivity].
  apply find_some in Hu as [_ Hid]. apply Z.eqb_eq in Hid.
  unfold User_cart. rewrite Hid, Hrows.
  rewrite (entries_of_products db db') by exact Hproducts. reflexivity.
Qed.

Lemma shown_entry (db : DB) (rows : list CartItem) (es : list cart_entry) (e : cart_entry) :
  Forall2 (shows db) rows es -> In e es -> exists c, In c rows /\ shows db c e.
Proof.
  intros Hall. induction Hall as [|c e' rows es Hce _ IHall]; intros He; [contradiction|].
  destruct He as [<-|He].
  - exists c. split; [left; reflexivity|exact Hce].
  - destruct (IHall He) as (c' & Hc' & Hshown).
    exists c'. split; [right; exact Hc'|exact Hshown].
Qed.

(** X15: carts are isolated on the reading side.  Every entry that
    [view_cart] returns to U is a row of U; and with CartItem ids unique,
    whatever another user V does to a cart (add, remove, view, checkout,
    with or without a failure of the engine), [view_cart] of U answers
    afterwards what it answered before. *)
Theorem view_cart_isolated :
  forall (op : cart_op) (U V : Z) (db : DB) (cookie : option Z) (failing : option nat),
    NoDup (map CartItem_id (cart_items db)) ->
    V <> U ->
    outcome_of (run_request (view_cart U)
        (store_of (run_request (cart_view op V) db cookie failing)) cookie None) =
      outcome_of (run_request (view_cart U) db cookie None) /\
    (forall es e,
       cart_content_of (outcome_of (run_request (view_cart U) db cookie None)) = Some es ->
       In e es -> entry_user_id e = U).
Proof.
  intros op U V db cookie failing Hunique Hne. split.
  - destruct (cart_view_frame op U V db cookie failing Hunique Hne)
      as (Hrows & Hproducts & Husers).
    apply view_cart_reads; assumption.
  - intros es e Hes He. rewrite view_cart_run in Hes. unfold outcome_of in Hes.
    simpl in Hes.
    destruct (User_get U db) as [u|] eqn:Hu; [|discriminate].
    destruct (User_get_id _ _ _ Hu) as [Hid _].
    destruct (entries_of db (User_cart u db)) as [es'|] eqn:Hent; [|discriminate].
    simpl in Hes. injection Hes as ->.
    destruct (shown_entry _ _ _ e (entries_of_shows _ _ _ Hent) He)
      as (c & Hc & _ & Huser & _).
    unfold User_cart in Hc. apply filter_In in Hc as [_ Hown].
    apply owned_by_spec in Hown. congruence.
Qed.

Lemma view_cart_isolated_witness :
  outcome_of (run_request (view_cart 2)
      (store_of (run_request (cart_view Checkout 1) sample_db None None)) None None) =
    Returned (jsonify (CartContent
      [ {| entry_id := 2; entry_user_id := 2; entry_product_id := 1;
           entry_product_name := "Pen"; entry_product_price := Finite (3 # 2) |} ]) 200).
Proof.
  assert (Hunique : NoDup (map CartItem_id (cart_items sample_db))).
  { simpl. repeat constructor; simpl; intuition discriminate. }
  assert (Hne : 1 <> 2) by discriminate.
  destruct (view_cart_isolated Checkout 2 1 sample_db None None Hunique Hne) as [Hsame _].
  rewrite Hsame. reflexivity.
Defined.

(** ** Login without a password *)

(** X16: the password check is Python's equality between
    [data.get("password")] and the stored column, and the column is
    nullable.  With usernames unique, a user whose stored password is NULL
    is logged in by a body that names the user and has no password key, or
    a null one, and is refused (401, session unchanged) with any password
    that is a string, the empty string included. *)
Theorem login_with_null_password :
  forall (db : DB) (cookie : option Z) (u : User) (data : login_json),
    NoDup (map User_username (users db)) ->
    In u (users db) ->
    User_password u = None ->
    json_username data = Value (User_username u) ->
    (json_password data = Absent \/ json_password data = Null ->
       run_request (login data) db cookie None =
         (Returned (jsonify (Message "Login realizado com sucesso") 200), db,
          Some (User_id u))) /\
    (forall typed, json_password data = Value typed ->
       run_request (login data) db cookie None =
         (Returned (jsonify (Message "Credenciais inválidas") 401), db, cookie)).
Proof.
  intros db cookie u data Hunique Hin Hstored Hname.
  rewrite login_run, Hname. simpl.
  rewrite find_by_username by assumption. rewrite Hstored. split.
  - intros [-> | ->]; reflexivity.
  - intros typed ->. reflexivity.
Qed.

Lemma login_with_null_password_witness :
  run_request (login {| json_username := Value "bob"; json_password := Absent |})
      sample_db None None =
    (Returned (jsonify (Message "Login realizado com sucesso") 200), sample_db, Some 2) /\
  run_request (login {| json_username := Value "bob"; json_password := Value "" |})
      sample_db None None =
    (Returned (jsonify (Message "Credenciais inválidas") 401), sample_db, None).
Proof.
  assert (Hunique : NoDup (map User_username (users sample_db))).
  { simpl. repeat constructor; simpl; intuition discriminate. }
  assert (Hbob : In {| User_id := 2; User_username := "bob"; User_password := None |}
                    (users sample_db)) by (right; left; reflexivity).
  split.
  - apply (login_with_null_password sample_db None
             {| User_id := 2; User_username := "bob"; User_password := None |}
             {| json_username := Value "bob"; json_password := Absent |}
             Hunique Hbob eq_refl eq_refl).
    left. reflexivity.
  - apply (login_with_null_password sample_db None
             {| User_id := 2; User_username := "bob"; User_password := None |}
             {| json_username := Value "bob"; json_password := Value "" |}
             Hunique Hbob eq_refl eq_refl) with (typed := "").
    reflexivity.
Defined.
